(** * Bulk ingestion, event matching and batch assembly
    (services/excel_processor.py)

    A shallow embedding of [ExcelProcessor] and [generate_validation_report],
    and the properties of the ingestion pipeline checked against it.

    Conventions of the embedding.
    - A Python [str] is a [string]; the whitespace and case tables below
      cover the code points under 256, one character per [ascii].
    - A raised exception is the value [Raise msg], [msg] being [str(e)],
      the only thing the handlers of this module read from it.
    - Objects mutated in place ([ExcelRow.errors], the [rows] and [errors]
      lists, the zip archive) are threaded as values; every list position
      holds a row object of its own, as [parse_excel_file] builds them. *)

From Stdlib Require Import Ascii String DecimalString.
From stdpp Require Import base option list strings gmap.

Local Open Scope string_scope.
Local Open Scope Z_scope.
Local Open Scope list_scope.

(** ** Python values *)

Module Py.

(** Outcome of a computation that may raise. *)
Inductive exc (A : Type) : Type :=
| Ok (a : A)
| Raise (msg : string).
Arguments Ok {A} a.
Arguments Raise {A} msg.

#[global] Instance exc_ret : MRet exc := λ A a, Ok a.
#[global] Instance exc_bind : MBind exc := λ A B k m,
  match m with
  | Ok a => k a
  | Raise msg => Raise msg
  end.

(** A float other than NaN, seen through the two observations the
    module makes of it: [bool(x)] and [str(x)]. *)
Record pyfloat : Type := PyFloat { float_is_zero : bool; float_str : string }.

(** The values [get_value] can return, and so the values stored in the
    untyped attributes of a row. *)
Inductive value : Type :=
| VNone
| VStr (s : string)
| VInt (n : Z)
| VBool (b : bool)
| VFloat (x : pyfloat).

#[global] Instance pyfloat_eq_dec : EqDecision pyfloat.
Proof. solve_decision. Defined.
#[global] Instance value_eq_dec : EqDecision value.
Proof. solve_decision. Defined.

(** [str(n)] for an int. *)
Definition str_of_Z (n : Z) : string := NilZero.string_of_int (Z.to_int n).

(** [bool(v)]. *)
Definition truthy (v : value) : bool :=
  match v with
  | VNone => false
  | VStr s => negb (String.eqb s "")
  | VInt n => negb (n =? 0)
  | VBool b => b
  | VFloat x => negb (float_is_zero x)
  end.

(** [str(v)]. *)
Definition str (v : value) : string :=
  match v with
  | VNone => "None"
  | VStr s => s
  | VInt n => str_of_Z n
  | VBool b => if b then "True" else "False"
  | VFloat x => float_str x
  end.

(** [a or b]. *)
Definition or (a b : value) : value := if truthy a then a else b.

(** [type(v).__name__], as it appears in an AttributeError message. *)
Definition type_name (v : value) : string :=
  match v with
  | VNone => "NoneType"
  | VStr _ => "str"
  | VInt _ => "int"
  | VBool _ => "bool"
  | VFloat _ => "float"
  end.

(** [c.isspace()] on the code points below 256. *)
Definition is_space (c : ascii) : bool :=
  let n := nat_of_ascii c in
  ((9 <=? n) && (n <=? 13) || (28 <=? n) && (n <=? 32)
   || (n =? 133) || (n =? 160))%nat.

(** [c.lower()] on the code points below 256. *)
Definition lower_char (c : ascii) : ascii :=
  let n := nat_of_ascii c in
  if ((65 <=? n) && (n <=? 90)
      || (192 <=? n) && (n <=? 222) && negb (n =? 215))%nat
  then ascii_of_nat (n + 32) else c.

Fixpoint lower (s : string) : string :=
  match s with
  | EmptyString => EmptyString
  | String c s' => String (lower_char c) (lower s')
  end.

Fixpoint lstrip (s : string) : string :=
  match s with
  | EmptyString => EmptyString
  | String c s' => if is_space c then lstrip s' else s
  end.

(** [s.rstrip()]: a character is kept when it is not a space or when
    something is kept after it. *)
Fixpoint rstrip (s : string) : string :=
  match s with
  | EmptyString => EmptyString
  | String c s' =>
      match rstrip s' with
      | EmptyString => if is_space c then EmptyString else String c EmptyString
      | t => String c t
      end
  end.

(** [s.strip()]. *)
Definition strip (s : string) : string := rstrip (lstrip s).

(** [s.replace(a, b)] for single characters. *)
Fixpoint replace (a b : ascii) (s : string) : string :=
  match s with
  | EmptyString => EmptyString
  | String c s' => String (if Ascii.eqb c a then b else c) (replace a b s')
  end.

(** [s[:n]]. *)
Fixpoint prefix (n : nat) (s : string) : string :=
  match n, s with
  | O, _ => EmptyString
  | _, EmptyString => EmptyString
  | S n', String c s' => String c (prefix n' s')
  end.

(** [sep.join(l)]. *)
Definition join (sep : string) (l : list string) : string := String.concat sep l.

End Py.

Import Py.

(** ** Data model *)

(** One cell of the uploaded table, as [DataFrame.iterrows] hands it over. *)
Inductive cell : Type :=
| CNa                     (* None, NaN, NaT: [pd.isna(val)] holds *)
| CStr (s : string)
| CInt (n : Z)
| CBool (b : bool)        (* bool is a subclass of int *)
| CFloat (x : pyfloat)
| CObj (repr : string).   (* any other object (a Timestamp), by its [str(val)] *)

(** A [pd.Series] row, as the lookups of [_parse_row] see it: the
    string labels with their cells, in column order. Labels need not be
    distinct: lower-casing and stripping the headers can make two of
    them equal. *)
Abbreviation Series := (list (string * cell)).

(** A header cell of the uploaded table: a text or a number. *)
Inductive header : Type :=
| HText (s : string)
| HNumber (n : Z).

(** A column label after [.str.lower().str.strip()]: a string, or NaN
    ([None]) where the header was not a text. *)
Abbreviation label := (option string).

(** A table: its column labels and its data lines, each line holding
    one cell per column. The labels are headers as [pd.read_excel] reads
    them, and [label]s once [parse_excel_file] has normalised them. *)
Record DataFrame (L : Type) : Type := mkDataFrame {
  columns : list L;
  data : list (list cell);
}.
Arguments mkDataFrame {L} columns data.
Arguments columns {L} d.
Arguments data {L} d.

(** The uploaded file, by what [pd.read_excel] makes of it. *)
Inductive file : Type :=
| Unreadable (msg : string)
| Workbook (df : DataFrame header).

Definition read_excel (file_obj : file) : exc (DataFrame header) :=
  match file_obj with
  | Unreadable msg => Raise msg
  | Workbook df => Ok df
  end.

Definition is_text (h : header) : bool :=
  match h with
  | HText _ => true
  | HNumber _ => false
  end.

(** The texts among the headers, in column order. *)
Definition header_texts (headers : list header) : list string :=
  omap (λ h, match h with HText s => Some s | HNumber _ => None end) headers.

(** [str(e)] of the AttributeError the [.str] accessor raises on an
    index that holds no string. *)
Definition str_accessor_error : string :=
  "Can only use .str accessor with string values!".

(** [columns.str.lower()]: the accessor is refused when no header is a
    text (a sheet without header row, or with numbers only as headers);
    otherwise a text is lower-cased and a number becomes NaN. *)
Definition lower_header (h : header) : label :=
  match h with
  | HText s => Some (lower s)
  | HNumber _ => None
  end.

Definition str_lower (columns : list header) : exc (list label) :=
  if existsb is_text columns
  then Ok (lower_header <$> columns)
  else Raise str_accessor_error.

(** [columns.str.strip()] on the labels [str_lower] returns: they are
    strings and NaN, on which the accessor does not raise; NaN stays. *)
Definition str_strip (columns : list label) : list label :=
  (λ l : label, strip <$> l) <$> columns.

(** The labels that are strings. NaN is [in] no list of strings and is
    equal to no string, so that neither [col in variations] nor
    [row.get(col)] ever selects a column labelled NaN. *)
Definition text_labels (columns : list label) : list string :=
  omap id columns.

(** One data line as a row: the cells under a string label. *)
Definition labelled (columns : list label) (cells : list cell) : Series :=
  omap (λ lc : label * cell, (λ l, (l, lc.2)) <$> lc.1) (zip columns cells).

(** [df.iterrows()] over the default [RangeIndex]. *)
Definition iterrows (df : DataFrame label) : list (Z * Series) :=
  imap (λ i cells, (Z.of_nat i, labelled (columns df) cells)) (data df).

(** The dict [match_events] stores in [row.matched_event]. *)
Record MatchedEvent : Type := mkMatchedEvent {
  me_meeting_name : string;
  me_meeting_date_long : string;
  me_venue : string;
  me_city_state : string;
  me_event_year : Z;
}.

(** Modelled from the spec: [ExcelRow] of core/models.py, which is not
    part of the sources at hand. The attributes are those
    [ExcelProcessor._parse_row] passes to the constructor, plus the
    append-only [errors] list and the optional [matched_event] of the
    spec's IngestedRow, both empty on a new row. *)
Record ExcelRow : Type := mkExcelRow {
  exhibitor_invite : value;
  event_name : value;
  total : string;
  company_name : value;
  expected_attendance : value;
  date : value;
  city : value;
  venue : value;
  official_address : value;
  amount : value;
  discount : value;
  row_number : Z;
  errors : list string;
  matched_event : option MatchedEvent;
}.

(** Modelled from the spec: [ExcelRow.add_error] of core/models.py
    appends to the ordered [errors] list. *)
Definition add_error (row : ExcelRow) (msg : string) : ExcelRow :=
  mkExcelRow (exhibitor_invite row) (event_name row) (total row)
    (company_name row) (expected_attendance row) (date row) (city row)
    (venue row) (official_address row) (amount row) (discount row)
    (row_number row) (errors row ++ [msg]) (matched_event row).

(** Modelled from the spec: [ExcelRow.has_errors] of core/models.py, the
    predicate "this row carries an entry in [errors]". *)
Definition has_errors (row : ExcelRow) : bool :=
  match errors row with
  | [] => false
  | _ :: _ => true
  end.

Definition set_matched_event (row : ExcelRow) (ev : MatchedEvent) : ExcelRow :=
  mkExcelRow (exhibitor_invite row) (event_name row) (total row)
    (company_name row) (expected_attendance row) (date row) (city row)
    (venue row) (official_address row) (amount row) (discount row)
    (row_number row) (errors row) (Some ev).

(** ** Schema resolver *)

Definition COLUMN_MAPPINGS : list (string * list string) :=
  [ ("exhibitor_invite", ["exhibitor invite"; "company"; "company name"; "exhibitor"]);
    ("event_name", ["event name"; "event"; "meeting name"; "meeting"]);
    ("total", ["total"; "amount"; "total amount"; "price"]);
    ("expected_attendance", ["expected attendance"; "attendance"; "attendees"]);
    ("date", ["date"; "meeting date"; "event date"]);
    ("city", ["city"; "location"]);
    ("venue", ["venue"; "location"]);
    ("official_address", ["official address"; "address"; "company address"]);
    ("amount", ["amount"; "booth amount"]);
    ("discount", ["discount"]) ].

(** The inner loop of [_build_column_map]: the first [col] of [columns]
    with [col in variations]. *)
Definition first_matching (variations columns : list string) : option string :=
  List.find (λ col, bool_decide (col ∈ variations)) columns.

Definition _build_column_map (columns : list string) : gmap string string :=
  foldl (λ column_map fv,
           match first_matching fv.2 columns with
           | Some col => <[fv.1 := col]> column_map
           | None => column_map
           end)
        ∅ COLUMN_MAPPINGS.

(** The synonyms of a field, when it is a canonical field. *)
Definition variations_of (field : string) : option (list string) :=
  (list_to_map COLUMN_MAPPINGS : gmap string (list string)) !! field.

(** A header satisfies a canonical field when, lower-cased and stripped,
    it is one of the field's accepted synonyms. *)
Definition accepted (field header : string) : Prop :=
  ∃ variations, (field, variations) ∈ COLUMN_MAPPINGS ∧ strip (lower header) ∈ variations.

(** A column name that is a synonym of some canonical field. *)
Definition is_variation (col : string) : bool :=
  existsb (λ fv : string * list string, bool_decide (col ∈ fv.2)) COLUMN_MAPPINGS.

(** ** Row normalizer *)

(** What [row.get(col)] returns: the default [None] for an unknown label,
    the cell for a label that occurs once, a sub-series for a repeated
    label. *)
Inductive lookup : Type :=
| Absent
| Scalar (c : cell)
| SubSeries (cs : list cell).

Definition Series_get (row : Series) (col : string) : lookup :=
  match filter (λ lc, lc.1 = col) row with
  | [] => Absent
  | [lc] => Scalar lc.2
  | lcs => SubSeries (snd <$> lcs)
  end.

(** [str(e)] of the ValueError pandas raises when a Series is used as a
    condition, as [if pd.isna(val)] does on a sub-series. *)
Definition ambiguous_truth_value : string :=
  "The truth value of a Series is ambiguous. Use a.empty, a.bool(), a.item(), a.any() or a.all().".

(** The last two statements of [get_value] on a scalar: the default for
    a missing value, a number as it is, anything else as [str(val).strip()]. *)
Definition coerce (default : value) (val : cell) : value :=
  match val with
  | CNa => default
  | CStr s => VStr (strip s)
  | CObj repr => VStr (strip repr)
  | CInt n => VInt n
  | CBool b => VBool b
  | CFloat x => VFloat x
  end.

(** The local function [get_value] of [_parse_row]. *)
Definition get_value (row : Series) (column_map : gmap string string)
    (field : string) (default : value) : exc value :=
  match column_map !! field with
  | None => Ok default
  | Some col =>
      match Series_get row col with
      | Absent => Ok default
      | SubSeries _ => Raise ambiguous_truth_value
      | Scalar val => Ok (coerce default val)
      end
  end.

Definition _parse_row (row : Series) (column_map : gmap string string)
    (row_number : Z) : exc ExcelRow :=
  let get_value := get_value row column_map in
  exhibitor ← get_value "exhibitor_invite" (VStr "");
  event ← get_value "event_name" (VStr "");
  total ← get_value "total" (VStr "0");
  company_name ← get_value "exhibitor_invite" VNone;
  expected_attendance ← get_value "expected_attendance" VNone;
  date ← get_value "date" VNone;
  city ← get_value "city" VNone;
  venue ← get_value "venue" VNone;
  official_address ← get_value "official_address" VNone;
  amount ← get_value "amount" VNone;
  discount ← get_value "discount" VNone;
  let excel_row :=
    mkExcelRow exhibitor event (str total) company_name expected_attendance
      date city venue official_address amount discount row_number [] None in
  let excel_row :=
    if negb (truthy exhibitor)
    then add_error excel_row "Missing company name" else excel_row in
  let excel_row :=
    if negb (truthy event)
    then add_error excel_row "Missing event name" else excel_row in
  let excel_row :=
    if negb (truthy total) || bool_decide (total = VStr "0")
    then add_error excel_row "Missing or invalid total" else excel_row in
  mret excel_row.

(** The cell a record holds for a canonical field; a field without
    column, or a column the record does not have, counts as missing. *)
Definition cell_at (row : Series) (column_map : gmap string string)
    (field : string) : cell :=
  match column_map !! field with
  | None => CNa
  | Some col =>
      match Series_get row col with
      | Scalar val => val
      | _ => CNa
      end
  end.

(** A missing or blank cell. *)
Definition blank (val : cell) : bool :=
  match val with
  | CNa => true
  | CStr s | CObj s => String.eqb (strip s) ""
  | _ => false
  end.

(** A numeric cell equal to zero. *)
Definition zero (val : cell) : bool :=
  match val with
  | CInt n => n =? 0
  | CBool b => negb b
  | CFloat x => float_is_zero x
  | _ => false
  end.

(** A text cell that reads "0". *)
Definition zero_text (val : cell) : bool :=
  match val with
  | CStr s | CObj s => String.eqb (strip s) "0"
  | _ => false
  end.

(** ** Ingestion *)

Definition required : list string := ["exhibitor_invite"; "event_name"; "total"].

(** [try: body except Exception as e: handler]. *)
Definition try_except {A : Type} (body : exc A) (handler : string → exc A) : exc A :=
  match body with
  | Ok a => Ok a
  | Raise e => handler e
  end.

(** [for x in l: st = body st x], stopping at the first exception. *)
Fixpoint for_in {S A : Type} (body : S → A → exc S) (st : S) (l : list A) : exc S :=
  match l with
  | [] => mret st
  | x :: l' => st' ← body st x; for_in body st' l'
  end.

(** Body of the [for idx, row in df.iterrows()] loop, with its own
    [try]/[except]: the state is the pair of lists [rows], [errors]. *)
Definition parse_step (column_map : gmap string string)
    (st : list ExcelRow * list string) (ir : Z * Series)
    : exc (list ExcelRow * list string) :=
  try_except
    (excel_row ← _parse_row ir.2 column_map (ir.1 + 2);
     mret (st.1 ++ [excel_row], st.2))
    (λ e, mret (st.1, st.2 ++ ["Row " +:+ str_of_Z (ir.1 + 2) +:+ ": " +:+ e])).

(** The fields of [required] that are not keys of [column_map]. *)
Definition missing_columns (column_map : gmap string string) : list string :=
  filter (λ col, column_map !! col = None) required.

(** [parse_excel_file]. Under the outer [try], [rows] and [errors] are
    still empty when [pd.read_excel] or the normalisation of the headers
    raises. *)
Definition parse_excel_file (file_obj : file) : exc (list ExcelRow * list string) :=
  let errors := [] in
  let rows := [] in
  try_except
    (df ← read_excel file_obj;
     lowered ← str_lower (columns df);
     let df := mkDataFrame (str_strip lowered) (data df) in
     let column_map := _build_column_map (text_labels (columns df)) in
     let missing := missing_columns column_map in
     if bool_decide (missing ≠ [])
     then mret (rows, errors ++ ["Missing required columns: " +:+ join ", " missing])
     else for_in (parse_step column_map) (rows, errors) (iterrows df))
    (λ e, mret (rows, errors ++ ["Failed to read Excel file: " +:+ e])).

(** The rows of the table that [_parse_row] turns into an [ExcelRow],
    and the messages recorded for those on which it raises, both in
    table order. *)
Definition parsed_rows (column_map : gmap string string)
    (lines : list (Z * Series)) : list ExcelRow :=
  omap (λ ir, match _parse_row ir.2 column_map (ir.1 + 2) with
              | Ok excel_row => Some excel_row
              | Raise _ => None
              end) lines.

Definition row_errors (column_map : gmap string string)
    (lines : list (Z * Series)) : list string :=
  omap (λ ir, match _parse_row ir.2 column_map (ir.1 + 2) with
              | Ok _ => None
              | Raise e => Some ("Row " +:+ str_of_Z (ir.1 + 2) +:+ ": " +:+ e)
              end) lines.

(** ** Event matcher *)

(** An entry of the event registry ([config.events.Event], with the
    attributes [EventDatabase._row_to_event] fills in). *)
Record Event : Type := mkEvent {
  ev_meeting_name : string;
  ev_meeting_date_long : string;
  ev_venue : string;
  ev_city_state : string;
}.

(** The collaborators of [match_events] that live in services/event_matcher.py
    and config/events.py: the registry snapshot [get_all_events()], the
    similarity search [EventMatcher.find_best_match], which answers [None]
    when no candidate clears its acceptance threshold, and [Event.get_year]. *)
Record EventMatcher : Type := mkEventMatcher {
  get_all_events : list Event;
  find_best_match : value → list Event → option Event;
  get_year : Event → Z;
}.

(** Body of the [for row in rows] loop of [match_events]. *)
Definition match_row (M : EventMatcher) (all_events : list Event)
    (row : ExcelRow) : ExcelRow :=
  if negb (truthy (event_name row))
  then add_error row "No event name provided"
  else
    match find_best_match M (event_name row) all_events with
    | Some matched =>
        set_matched_event row
          (mkMatchedEvent (ev_meeting_name matched) (ev_meeting_date_long matched)
             (ev_venue matched) (ev_city_state matched) (get_year M matched))
    | None => add_error row ("Could not match event: " +:+ str (event_name row))
    end.

Definition match_events (M : EventMatcher) (rows : list ExcelRow) : list ExcelRow :=
  let all_events := get_all_events M in
  match_row M all_events <$> rows.

(** ** Payload resolver and batch assembler *)

Definition blob : Type := string.

Record Signatory : Type := mkSignatory {
  sig_name : string;
  sig_title : string;
}.

(** [DocumentPayload] of core/models.py, with the attributes
    [generate_batch_documents] sets. *)
Record DocumentPayload : Type := mkDocumentPayload {
  p_company_name : value;
  p_company_address : value;
  p_meeting_name : string;
  p_meeting_date_long : string;
  p_venue : string;
  p_city_state : string;
  p_final_total : pyfloat;
  p_amount_currency : string;
  p_document_type : string;
  p_signature_person : option string;
  p_attendance_expected : value;
  p_audience_list : list string;
  p_event_year : Z;
}.

(** What [generate_batch_documents] imports from outside this module:
    the signatory roster and default audience of config/settings.py,
    [ExcelRow.get_total_amount] of core/models.py, and the two rendering
    functions of generators/, each returning a (docx, pdf) pair or
    raising. *)
Record Generators : Type := mkGenerators {
  AUTHORIZED_SIGNATORIES : gmap string Signatory;
  DEFAULT_AUDIENCE : list string;
  get_total_amount : ExcelRow → exc pyfloat;
  generate_lor_documents : DocumentPayload → exc (blob * blob);
  generate_loa_documents : DocumentPayload → string → exc (blob * blob);
}.

(** One call made to the rendering collaborator. *)
Inductive RenderCall : Type :=
| CallLOA (payload : DocumentPayload) (signatory_key : string)
| CallLOR (payload : DocumentPayload).

(** [AUTHORIZED_SIGNATORIES.get(signatory_key, AUTHORIZED_SIGNATORIES["sarah"])]:
    the default is evaluated first and is a KeyError when absent. *)
Definition signatory_info (G : Generators) (signatory_key : string) : exc Signatory :=
  match AUTHORIZED_SIGNATORIES G !! "sarah" with
  | None => Raise "'sarah'"
  | Some sarah => Ok (default sarah (AUTHORIZED_SIGNATORIES G !! signatory_key))
  end.

(** The "Build payload" statements. *)
Definition build_payload (G : Generators) (document_type signatory_key : string)
    (row : ExcelRow) (ev : MatchedEvent) : exc DocumentPayload :=
  signatory_info ← signatory_info G signatory_key;
  let signature_person := sig_name signatory_info +:+ " - " +:+ sig_title signatory_info in
  final_total ← get_total_amount G row;
  mret (mkDocumentPayload
          (Py.or (company_name row) (exhibitor_invite row))
          (Py.or (official_address row) (VStr ""))
          (me_meeting_name ev) (me_meeting_date_long ev) (me_venue ev)
          (me_city_state ev)
          final_total
          (total row)
          document_type
          (if String.eqb document_type "LOA" then Some signature_person else None)
          (expected_attendance row)
          (DEFAULT_AUDIENCE G)
          (me_event_year ev)).

(** [row.company_name.replace(' ', '_').replace('/', '_')[:50]]; only a
    [str] has [replace]. *)
Definition company_slug (row : ExcelRow) : exc string :=
  match company_name row with
  | VStr s => Ok (prefix 50 (replace "/" "_" (replace " " "_" s)))
  | v => Raise ("'" +:+ type_name v +:+ "' object has no attribute 'replace'")
  end.

Definition event_slug (ev : MatchedEvent) : string :=
  replace "/" "_" (replace " " "_" (prefix 30 (me_meeting_name ev))).

Definition base_name (document_type company_slug event_slug : string) : string :=
  document_type +:+ "_" +:+ company_slug +:+ "_" +:+ event_slug.

Definition render_call (document_type signatory_key : string)
    (payload : DocumentPayload) : RenderCall :=
  if String.eqb document_type "LOA"
  then CallLOA payload signatory_key else CallLOR payload.

Definition render (G : Generators) (call : RenderCall) : exc (blob * blob) :=
  match call with
  | CallLOA payload signatory_key => generate_loa_documents G payload signatory_key
  | CallLOR payload => generate_lor_documents G payload
  end.

(** The [try] block of the loop, for a row with a matched event: the
    calls made to the renderer, and either the two archive entries
    written or the exception raised. *)
Definition try_generate (G : Generators) (document_type signatory_key : string)
    (row : ExcelRow) (ev : MatchedEvent)
    : list RenderCall * exc (list (string * blob)) :=
  match build_payload G document_type signatory_key row ev with
  | Raise e => ([], Raise e)
  | Ok payload =>
      let call := render_call document_type signatory_key payload in
      match render G call with
      | Raise e => ([call], Raise e)
      | Ok (docx_buffer, pdf_buffer) =>
          ([call],
           company_slug ← company_slug row;
           let base_name := base_name document_type company_slug (event_slug ev) in
           mret [(base_name +:+ ".docx", docx_buffer);
                 (base_name +:+ ".pdf", pdf_buffer)])
      end
  end.

(** State of the batch loop: the archive entries written so far, the two
    counters, the calls made to the renderer, and the rows as the loop
    leaves them ([add_error] on a generation failure). *)
Record Batch : Type := mkBatch {
  zipf : list (string * blob);
  success_count : nat;
  error_count : nat;
  rendered : list RenderCall;
  rows_after : list ExcelRow;
}.

Definition skip_row (b : Batch) (row : ExcelRow) : Batch :=
  mkBatch (zipf b) (success_count b) (S (error_count b)) (rendered b)
    (rows_after b ++ [row]).

(** Body of the [for row in rows] loop of [generate_batch_documents]. *)
Definition batch_step (G : Generators) (document_type signatory_key : string)
    (b : Batch) (row : ExcelRow) : Batch :=
  if has_errors row then skip_row b row
  else
    match matched_event row with
    | None => skip_row b row
    | Some ev =>
        let '(calls, result) := try_generate G document_type signatory_key row ev in
        match result with
        | Ok entries =>
            mkBatch (zipf b ++ entries) (S (success_count b)) (error_count b)
              (rendered b ++ calls) (rows_after b ++ [row])
        | Raise e =>
            mkBatch (zipf b) (success_count b) (S (error_count b))
              (rendered b ++ calls)
              (rows_after b ++ [add_error row ("Generation failed: " +:+ e)])
        end
    end.

(** [generate_batch_documents]: the returned tuple is
    [(zipf, success_count, error_count)] of the final state. *)
Definition generate_batch_documents (G : Generators) (rows : list ExcelRow)
    (document_type signatory_key : string) : Batch :=
  foldl (batch_step G document_type signatory_key) (mkBatch [] 0 0 [] []) rows.

(** A row the batch turns into two archive entries. *)
Definition succeeds (G : Generators) (document_type signatory_key : string)
    (row : ExcelRow) : bool :=
  negb (has_errors row) &&
  match matched_event row with
  | None => false
  | Some ev =>
      match (try_generate G document_type signatory_key row ev).2 with
      | Ok _ => true
      | Raise _ => false
      end
  end.

(** What one row adds to the batch, read off [batch_step]: the calls
    to the renderer, the archive entries, and the row as it is left. *)
Definition calls_of (G : Generators) (document_type signatory_key : string)
    (row : ExcelRow) : list RenderCall :=
  if has_errors row then []
  else match matched_event row with
       | None => []
       | Some ev => (try_generate G document_type signatory_key row ev).1
       end.

Definition entries_of (G : Generators) (document_type signatory_key : string)
    (row : ExcelRow) : list (string * blob) :=
  if has_errors row then []
  else match matched_event row with
       | None => []
       | Some ev =>
           match (try_generate G document_type signatory_key row ev).2 with
           | Ok entries => entries
           | Raise _ => []
           end
       end.

Definition row_after (G : Generators) (document_type signatory_key : string)
    (row : ExcelRow) : ExcelRow :=
  if has_errors row then row
  else match matched_event row with
       | None => row
       | Some ev =>
           match (try_generate G document_type signatory_key row ev).2 with
           | Ok _ => row
           | Raise e => add_error row ("Generation failed: " +:+ e)
           end
       end.

(** The two names a successful row is archived under. *)
Definition archive_names (document_type : string) (row : ExcelRow) : list string :=
  match company_slug row, matched_event row with
  | Ok company_slug, Some ev =>
      let base_name := base_name document_type company_slug (event_slug ev) in
      [base_name +:+ ".docx"; base_name +:+ ".pdf"]
  | _, _ => []
  end.

(** ** Validation report *)

Definition nl : string := String (ascii_of_nat 10) EmptyString.

Definition str_of_nat (n : nat) : string := str_of_Z (Z.of_nat n).

(** The lines appended for one row of [error_rows]. *)
Definition error_entry (row : ExcelRow) : list string :=
  ("**Row " +:+ str_of_Z (row_number row) +:+ "**: "
     +:+ str (Py.or (company_name row) (exhibitor_invite row)))
  :: ((λ error, "  - " +:+ error) <$> errors row) ++ [""].

(** The line appended for one of the first ten [valid_rows]. *)
Definition valid_entry (row : ExcelRow) : string :=
  "- **" +:+ str (company_name row) +:+ "** â†’ "
    +:+ match matched_event row with
        | Some ev => me_meeting_name ev
        | None => "No match"
        end.

Definition report_lines (rows : list ExcelRow) : list string :=
  let total_rows := length rows in
  let valid_rows := filter (λ r, has_errors r = false) rows in
  let error_rows := filter (λ r, has_errors r = true) rows in
  ["# Validation Report" +:+ nl;
   "**Total Rows**: " +:+ str_of_nat total_rows;
   "**Valid Rows**: " +:+ str_of_nat (length valid_rows);
   "**Rows with Errors**: " +:+ str_of_nat (length error_rows) +:+ nl]
  ++ (match error_rows with
      | [] => []
      | _ => ("## Errors" +:+ nl) :: mjoin (error_entry <$> error_rows)
      end)
  ++ (match valid_rows with
      | [] => []
      | _ =>
          ("## Valid Rows (Ready to Generate)" +:+ nl)
          :: (valid_entry <$> take 10 valid_rows)
          ++ (if bool_decide (10 < length valid_rows)%nat
              then [nl +:+ "... and " +:+ str_of_nat (length valid_rows - 10) +:+ " more"]
              else [])
      end).

Definition generate_validation_report (rows : list ExcelRow) : string :=
  join nl (report_lines rows).


(** ** Instances used to evaluate the pipeline on concrete tables *)

Module Demo.

Definition asco : Event :=
  mkEvent "ASCO Direct from Chicago 2025" "June 7, 2025" "Marriott" "Chicago, IL".

Definition liver : Event :=
  mkEvent "Liver Meeting Direct from San Diego" "December 6, 2025" "Hyatt" "San Diego, CA".

(** Modelled from the spec: a stand-in for [EventMatcher.find_best_match]
    of services/event_matcher.py, which is not among the sources at hand:
    the case-insensitive comparison with the registry names, in registry
    order, which accepts an exact name and nothing else. *)
Definition exact_name_match (text : value) (events : list Event) : option Event :=
  match text with
  | VStr s => List.find (λ e, String.eqb (lower (strip s)) (lower (ev_meeting_name e))) events
  | _ => None
  end.

Definition matcher : EventMatcher :=
  mkEventMatcher [asco; liver] exact_name_match (λ _, 2025).

Definition is_digit (c : ascii) : bool :=
  let n := nat_of_ascii c in ((48 <=? n) && (n <=? 57))%nat.

Fixpoint remove_char (a : ascii) (s : string) : string :=
  match s with
  | EmptyString => EmptyString
  | String c s' => if Ascii.eqb c a then remove_char a s' else String c (remove_char a s')
  end.

(** Digits, then at most one point followed by digits. *)
Fixpoint decimal_tail (seen_point : bool) (s : string) : bool :=
  match s with
  | EmptyString => true
  | String c s' =>
      if is_digit c then decimal_tail seen_point s'
      else if Ascii.eqb c "." then negb seen_point && decimal_tail true s'
      else false
  end.

Definition is_decimal (s : string) : bool :=
  match s with
  | EmptyString => false
  | String c _ => is_digit c && decimal_tail false s
  end.

Fixpoint all_zero (s : string) : bool :=
  match s with
  | EmptyString => true
  | String c s' => (Ascii.eqb c "0" || Ascii.eqb c ".") && all_zero s'
  end.

(** Modelled from the spec: a stand-in for [ExcelRow.get_total_amount] of
    core/models.py, which is not among the sources at hand: currency
    symbol and grouping separators are stripped and the rest is read as
    a decimal amount; a malformed total raises. *)
Definition total_amount (row : ExcelRow) : exc pyfloat :=
  let text := strip (remove_char "," (remove_char "$" (total row))) in
  if is_decimal text then Ok (PyFloat (all_zero text) text)
  else Raise ("could not convert string to float: '" +:+ text +:+ "'").

Definition roster : gmap string Signatory :=
  {[ "sarah" := mkSignatory "Sarah" "Director";
     "michael" := mkSignatory "Michael" "President" ]}.

(** A renderer that accepts every payload. *)
Definition render_any (payload : DocumentPayload) : exc (blob * blob) :=
  Ok ("docx " +:+ str (p_company_name payload), "pdf " +:+ str (p_company_name payload)).

(** A renderer that rejects every payload. *)
Definition render_none (payload : DocumentPayload) : exc (blob * blob) :=
  Raise "template error".

Definition generators : Generators :=
  mkGenerators roster ["Oncologists"] total_amount render_any (λ payload _, render_any payload).

(** A row as [match_events] leaves it when the event is found. *)
Definition row_of (company event : string) (address : value) (number : Z) : ExcelRow :=
  mkExcelRow (VStr company) (VStr event) "$5,000.00" (VStr company) VNone VNone
    VNone VNone address VNone VNone number []
    (Some (mkMatchedEvent event "June 7, 2025" "Marriott" "Chicago, IL" 2025)).

(** A record whose company and event cells are missing or blank. *)
Definition blank_record : Series :=
  [("company", CNa); ("event", CStr "  "); ("total", CStr "$5,000.00");
   ("address", CStr "1 Main St")].

Definition blank_map : gmap string string :=
  _build_column_map ["company"; "event"; "total"; "address"].

Definition blank_parsed : ExcelRow :=
  mkExcelRow (VStr "") (VStr "") "$5,000.00" VNone VNone VNone VNone VNone
    (VStr "1 Main St") VNone VNone 2
    ["Missing company name"; "Missing event name"] None.

(** A record whose total cell holds a text without digits. *)
Definition text_total_record : Series :=
  [("company", CStr "Acme"); ("event", CStr "ASCO 2025"); ("total", CStr " abc ")].

Definition text_total_map : gmap string string :=
  _build_column_map ["company"; "event"; "total"].

(** Eleven rows that all generate. *)
Definition eleven_rows : list ExcelRow :=
  (λ n, row_of ("Sponsor " +:+ str_of_Z (Z.of_nat n)) "ASCO Direct from Chicago 2025"
          VNone (Z.of_nat n + 1)) <$> seq 1 11.

(** A row whose event text is empty, as [_parse_row] leaves it. *)
Definition no_event_row : ExcelRow :=
  mkExcelRow (VStr "Acme") (VStr "") "$5,000.00" (VStr "Acme") VNone VNone VNone
    VNone VNone VNone VNone 2 ["Missing event name"] None.

(** A row whose event text is in no registry entry. *)
Definition unknown_event_row : ExcelRow :=
  mkExcelRow (VStr "Acme") (VStr "Unknown Summit") "$5,000.00" (VStr "Acme") VNone
    VNone VNone VNone VNone VNone VNone 3 [] None.

(** The three-line table of the end-to-end scenario: a valid line, a
    line without total, a line whose event is unknown. *)
Definition three_lines : file :=
  Workbook (mkDataFrame
              (HText <$> ["Exhibitor Invite"; "Event Name"; "Total"; "Official Address"])
    [[CStr "Sample Company Inc."; CStr "ASCO Direct from Chicago 2025";
      CStr "$5,000.00"; CStr "123 Main St"];
     [CStr "Another Corp"; CStr "Liver Meeting Direct from San Diego"; CNa; CNa];
     [CStr "Medical Devices LLC"; CStr "Unknown Summit"; CInt 7500; CNa]]).

(** A renderer that rejects the payloads of one company. *)
Definition render_except (company : string) (payload : DocumentPayload)
    : exc (blob * blob) :=
  if bool_decide (p_company_name payload = VStr company)
  then Raise "template error" else render_any payload.

Definition picky_generators : Generators :=
  mkGenerators roster ["Oncologists"] total_amount
    (render_except "Beta LLC") (λ payload _, render_except "Beta LLC" payload).

(** Generators whose roster has no entry "sarah". *)
Definition no_default_generators : Generators :=
  mkGenerators {[ "michael" := mkSignatory "Michael" "President" ]} ["Oncologists"]
    total_amount render_any (λ payload _, render_any payload).

(** A row whose company cell held a number. *)
Definition numeric_company_row : ExcelRow :=
  mkExcelRow (VInt 12345) (VStr "ASCO Direct from Chicago 2025") "$5,000.00"
    (VInt 12345) VNone VNone VNone VNone VNone VNone VNone 4 []
    (Some (mkMatchedEvent "ASCO Direct from Chicago 2025" "June 7, 2025" "Marriott"
             "Chicago, IL" 2025)).

End Demo.

(** * Properties *)

(** ** Schema resolver *)

Section SchemaResolver.

Implicit Types (columns headers variations : list string) (field col : string).

Lemma COLUMN_MAPPINGS_keys : NoDup COLUMN_MAPPINGS.*1.
Proof. apply (bool_decide_unpack _). by vm_compute. Qed.

Lemma variations_of_Some field variations :
  variations_of field = Some variations ↔ (field, variations) ∈ COLUMN_MAPPINGS.
Proof.
  unfold variations_of. split.
  - apply elem_of_list_to_map_2.
  - apply elem_of_list_to_map_1, COLUMN_MAPPINGS_keys.
Qed.

(** [first_matching] is the first column, in column order, that is one
    of the variations. *)
Lemma first_matching_Some variations columns col :
  first_matching variations columns = Some col ↔
  ∃ i : nat, columns !! i = Some col ∧ col ∈ variations ∧
    ∀ (j : nat) c, (j < i)%nat → columns !! j = Some c → c ∉ variations.
Proof.
  unfold first_matching. induction columns as [|c columns IH]; simpl.
  - split; [done|]. by intros (i & Hi & _).
  - case_bool_decide as Hc.
    + split.
      * intros [= <-]. exists 0%nat. split_and!; [done|done|]. intros j ?; lia.
      * intros (i & Hi & Hin & Hfirst). destruct i as [|i]; [by simplify_eq/=|].
        destruct (Hfirst 0%nat c); [lia|done|done].
    + rewrite IH. split.
      * intros (i & Hi & Hin & Hfirst). exists (S i). split_and!; [done|done|].
        intros [|j] c' Hj Hc'; simplify_eq/=; [done|].
        apply (Hfirst j); [lia|done].
      * intros (i & Hi & Hin & Hfirst). destruct i as [|i]; [by simplify_eq/=|].
        exists i. split_and!; [done|done|].
        intros j c' Hj Hc'. apply (Hfirst (S j)); [lia|done].
Qed.

Lemma first_matching_None variations columns :
  first_matching variations columns = None ↔ ∀ c, c ∈ columns → c ∉ variations.
Proof.
  unfold first_matching. induction columns as [|c columns IH]; simpl.
  - split; [|done]. intros _ c Hc. by apply elem_of_nil in Hc.
  - case_bool_decide as Hc.
    + split; [done|]. intros Hall. destruct (Hall c); [left|done].
    + rewrite IH. split.
      * intros Hall c' [->|Hc']%elem_of_cons; [done|by apply Hall].
      * intros Hall c' Hc'. apply Hall. by right.
Qed.

(** The outer loop of [_build_column_map] over any table of synonyms
    with distinct keys: every field is resolved on its own. *)
Lemma column_map_fold columns (mappings : list (string * list string))
    (m : gmap string string) field :
  NoDup mappings.*1 →
  foldl (λ column_map fv,
           match first_matching fv.2 columns with
           | Some col => <[fv.1 := col]> column_map
           | None => column_map
           end) m mappings !! field
  = match (list_to_map mappings : gmap string (list string)) !! field with
    | Some variations =>
        match first_matching variations columns with
        | Some col => Some col
        | None => m !! field
        end
    | None => m !! field
    end.
Proof.
  intros Hkeys. revert m.
  induction mappings as [|[f v] mappings IH]; intros m; simpl; [done|].
  apply NoDup_cons in Hkeys as [Hf Hkeys]. rewrite IH; [|done].
  destruct (decide (f = field)) as [->|Hne].
  - rewrite lookup_insert_eq, (not_elem_of_list_to_map_1 _ field); [|done].
    destruct (first_matching v columns); [apply lookup_insert_eq|done].
  - rewrite lookup_insert_ne; [|done].
    destruct (list_to_map mappings !! field) as [v'|] eqn:Hv';
      [destruct (first_matching v' columns); [done|]|];
      destruct (first_matching v columns); try done; by rewrite lookup_insert_ne.
Qed.

Lemma build_column_map_lookup columns field :
  _build_column_map columns !! field
  = variations ← variations_of field; first_matching variations columns.
Proof.
  unfold _build_column_map, variations_of.
  rewrite column_map_fold; [|apply COLUMN_MAPPINGS_keys].
  destruct (list_to_map COLUMN_MAPPINGS !! field) as [v|]; simpl; [|done].
  by destruct (first_matching v columns).
Qed.

Lemma build_column_map_None headers field :
  (∀ header, header ∈ headers → ¬ accepted field header) ↔
  _build_column_map ((strip ∘ lower) <$> headers) !! field = None.
Proof.
  rewrite build_column_map_lookup.
  destruct (variations_of field) as [v|] eqn:Hv; simpl.
  - apply variations_of_Some in Hv. rewrite first_matching_None. split.
    + intros Hno c (h & -> & Hh)%list_elem_of_fmap Hc.
      apply (Hno h Hh). by exists v.
    + intros Hno h Hh (v' & Hv' & Hc).
      assert (v' = v) as ->.
      { apply variations_of_Some in Hv, Hv'. congruence. }
      apply (Hno (strip (lower h))); [|done].
      apply list_elem_of_fmap. by exists h.
  - split; [done|]. intros _ h _ (v' & Hv' & _).
    apply variations_of_Some in Hv'. congruence.
Qed.

(** C7 (amended): for every list of headers, [_build_column_map] gives
    each canonical field the first header, in table-column order, that
    is one of the field's synonyms, and resolves every field against the
    whole list of headers: a header is not consumed by the field it
    satisfies, so one header can serve several fields. *)
Theorem build_column_map_first_match columns field variations col :
  (field, variations) ∈ COLUMN_MAPPINGS →
  _build_column_map columns !! field = first_matching variations columns ∧
  (_build_column_map columns !! field = Some col ↔
   ∃ i : nat, columns !! i = Some col ∧ col ∈ variations ∧
     ∀ (j : nat) c, (j < i)%nat → columns !! j = Some c → c ∉ variations).
Proof.
  intros Hf%variations_of_Some.
  assert (_build_column_map columns !! field = first_matching variations columns) as Heq.
  { rewrite build_column_map_lookup, Hf. done. }
  split; [done|]. rewrite Heq. apply first_matching_Some.
Qed.

Lemma build_column_map_first_match_witness :
  ("total", ["total"; "amount"; "total amount"; "price"]) ∈ COLUMN_MAPPINGS ∧
  _build_column_map ["price"; "company"; "total"] !! "total" = Some "price".
Proof.
  assert (("total", ["total"; "amount"; "total amount"; "price"]) ∈ COLUMN_MAPPINGS) as H.
  { apply (bool_decide_unpack _). vm_compute. exact I. }
  split; [exact H|].
  exact (eq_trans
           (proj1 (build_column_map_first_match ["price"; "company"; "total"]
                     "total" _ "price" H))
           eq_refl).
Defined.

(** C7, as stated, fails: the header "amount" is given both to the
    field total and to the field amount. *)
Lemma build_column_map_shares_header :
  let column_map := _build_column_map ["company"; "event"; "amount"] in
  column_map !! "total" = Some "amount" ∧
  column_map !! "amount" = Some "amount" ∧
  "total" ≠ "amount".
Proof. split_and!; [by vm_compute..|done]. Qed.

End SchemaResolver.

(** ** Ingestion *)

Section Ingestion.

Implicit Types (headers : list header) (lines : list (Z * Series)).

(** The loop body never raises: its handler turns the exception of
    [_parse_row] into an entry of [errors]. *)
Lemma parse_step_Ok column_map rows errors ir :
  parse_step column_map (rows, errors) ir
  = Ok match _parse_row ir.2 column_map (ir.1 + 2) with
       | Ok excel_row => (rows ++ [excel_row], errors)
       | Raise e => (rows, errors ++ ["Row " +:+ str_of_Z (ir.1 + 2) +:+ ": " +:+ e])
       end.
Proof.
  unfold parse_step. by destruct (_parse_row ir.2 column_map (ir.1 + 2)).
Qed.

Lemma for_in_parse_step column_map lines rows errors :
  for_in (parse_step column_map) (rows, errors) lines
  = Ok (rows ++ parsed_rows column_map lines, errors ++ row_errors column_map lines).
Proof.
  revert rows errors.
  induction lines as [|ir lines IH]; intros rows errors; cbn [for_in].
  - by rewrite !app_nil_r.
  - rewrite parse_step_Ok. unfold parsed_rows, row_errors. cbn [omap list_omap].
    destruct (_parse_row ir.2 column_map (ir.1 + 2)) as [excel_row|e]; cbn;
      rewrite IH; by rewrite <- app_assoc.
Qed.

Lemma parsed_rows_row_errors_length column_map lines :
  (length (parsed_rows column_map lines) + length (row_errors column_map lines)
   = length lines)%nat.
Proof.
  unfold parsed_rows, row_errors.
  induction lines as [|ir lines IH]; cbn [omap list_omap]; [done|].
  destruct (_parse_row ir.2 column_map (ir.1 + 2)); cbn [length]; lia.
Qed.

Lemma iterrows_length (df : DataFrame label) : length (iterrows df) = length (data df).
Proof. unfold iterrows. apply length_imap. Qed.

Lemma header_texts_elem headers s : s ∈ header_texts headers ↔ HText s ∈ headers.
Proof.
  unfold header_texts. rewrite list_elem_of_omap. split.
  - intros ([s'|n] & Hin & Heq); by simplify_eq.
  - intros Hin. by exists (HText s).
Qed.

Lemma existsb_is_text headers :
  existsb is_text headers = true ↔ ∃ s, HText s ∈ headers.
Proof.
  rewrite existsb_exists. split.
  - intros ([s|n] & Hin%list_elem_of_In & Htext); [by exists s|done].
  - intros (s & Hin). exists (HText s). by rewrite <- list_elem_of_In.
Qed.

(** The string labels of the normalised table are the lower-cased,
    stripped header texts. *)
Lemma normalised_text_labels headers :
  text_labels (str_strip (lower_header <$> headers))
  = (strip ∘ lower) <$> header_texts headers.
Proof.
  unfold text_labels, str_strip, header_texts.
  induction headers as [|[s|n] headers IH]; [done| |]; cbn; by rewrite ?IH.
Qed.

Lemma str_lower_text headers :
  (∃ s, HText s ∈ headers) → str_lower headers = Ok (lower_header <$> headers).
Proof. intros Htext%existsb_is_text. unfold str_lower. by rewrite Htext. Qed.

Lemma str_lower_no_text headers :
  (∀ s, HText s ∉ headers) → str_lower headers = Raise str_accessor_error.
Proof.
  intros Hno. unfold str_lower.
  destruct (existsb is_text headers) eqn:Htext; [|done].
  apply existsb_is_text in Htext as [s Hs]. by destruct (Hno s).
Qed.

Lemma missing_columns_spec headers f :
  f ∈ missing_columns (_build_column_map (text_labels (str_strip (lower_header <$> headers)))) ↔
  f ∈ required ∧ ∀ s, HText s ∈ headers → ¬ accepted f s.
Proof.
  unfold missing_columns.
  rewrite list_elem_of_filter, normalised_text_labels, <- build_column_map_None.
  split.
  - intros [Hno Hreq]. split; [done|]. intros s Hs. apply Hno.
    by apply header_texts_elem.
  - intros [Hreq Hno]. split; [|done]. intros s Hs. apply Hno.
    by apply header_texts_elem.
Qed.

(** C2 (amended): when a required canonical field has no header among
    its accepted synonyms, [parse_excel_file] returns no row and exactly
    one error, and the data lines play no part in the result. When some
    header is a text the error names the missing required fields; when
    no header is a text (a sheet without header row, or with numbers
    only as headers) normalising the headers raises, and the error is
    the "Failed to read Excel file" of the outer handler, which names no
    field. *)
Theorem parse_excel_file_missing_required headers field :
  field ∈ required →
  (∀ s, HText s ∈ headers → ¬ accepted field s) →
  ∃ error,
    (∀ cells, parse_excel_file (Workbook (mkDataFrame headers cells))
              = Ok ([], [error])) ∧
    ((∃ s, HText s ∈ headers) →
     ∃ missing,
       field ∈ missing ∧
       (∀ f, f ∈ missing ↔ f ∈ required ∧ ∀ s, HText s ∈ headers → ¬ accepted f s) ∧
       error = "Missing required columns: " +:+ join ", " missing) ∧
    ((∀ s, HText s ∉ headers) →
     error = "Failed to read Excel file: " +:+ str_accessor_error).
Proof.
  intros Hreq Hno.
  destruct (existsb is_text headers) eqn:Htext.
  - apply existsb_is_text in Htext.
    set (missing :=
           missing_columns
             (_build_column_map (text_labels (str_strip (lower_header <$> headers))))).
    assert (field ∈ missing) as Hin by by apply missing_columns_spec.
    exists ("Missing required columns: " +:+ join ", " missing). split_and!.
    + intros cells. unfold parse_excel_file.
      cbn [read_excel try_except mbind exc_bind columns data].
      rewrite (str_lower_text headers Htext).
      cbn [try_except mbind exc_bind columns data]. fold missing.
      rewrite bool_decide_eq_true_2; [done|].
      intros Hnil. rewrite Hnil in Hin. by apply elem_of_nil in Hin.
    + intros _. exists missing. split_and!; [done|apply missing_columns_spec|done].
    + intros Hnone. destruct Htext as [s Hs]. by destruct (Hnone s).
  - assert (∀ s, HText s ∉ headers) as Hnone.
    { intros s Hs. assert (existsb is_text headers = true) as Htrue
        by (apply existsb_is_text; by exists s). congruence. }
    exists ("Failed to read Excel file: " +:+ str_accessor_error). split_and!.
    + intros cells. unfold parse_excel_file.
      cbn [read_excel try_except mbind exc_bind columns data].
      by rewrite (str_lower_no_text headers Hnone).
    + intros [s Hs]. by destruct (Hnone s).
    + done.
Qed.

Lemma parse_excel_file_missing_required_witness :
  "event_name" ∈ required ∧
  (∀ s, HText s ∈ [HText "Company"; HNumber 2025; HText "Notes"] →
        ¬ accepted "event_name" s) ∧
  ∃ error,
    (∀ cells,
       parse_excel_file
         (Workbook (mkDataFrame [HText "Company"; HNumber 2025; HText "Notes"] cells))
       = Ok ([], [error])) ∧
    error = "Missing required columns: event_name, total".
Proof.
  assert ("event_name" ∈ required) as Hreq.
  { apply (bool_decide_unpack _). vm_compute. exact I. }
  assert (∀ s, HText s ∈ [HText "Company"; HNumber 2025; HText "Notes"] →
               ¬ accepted "event_name" s) as Hno.
  { apply (proj1 (missing_columns_spec
                    [HText "Company"; HNumber 2025; HText "Notes"] "event_name")).
    apply (list_elem_of_lookup_2 _ 0). vm_compute. reflexivity. }
  split; [exact Hreq|]. split; [exact Hno|].
  destruct (parse_excel_file_missing_required
              [HText "Company"; HNumber 2025; HText "Notes"] "event_name" Hreq Hno)
    as (error & Hres & _ & _).
  exists error. split; [exact Hres|].
  assert (Ok ([], [error])
          = Ok (([] : list ExcelRow), ["Missing required columns: event_name, total"]))
    as Heq.
  { rewrite <- (Hres []). vm_compute. reflexivity. }
  by injection Heq.
Defined.

Example parse_excel_file_two_missing :
  parse_excel_file
    (Workbook (mkDataFrame [HText "Company"; HText "Notes"] [[CStr "Acme"; CStr "n/a"]]))
  = Ok ([], ["Missing required columns: event_name, total"]).
Proof. by vm_compute. Qed.

(** C2, as stated, fails on a table none of whose headers is a text:
    no canonical field has a matching header, and the single error
    returned names no missing field. *)
Lemma parse_excel_file_without_text_header :
  (∀ field s, HText s ∈ [HNumber 2024; HNumber 2025] → ¬ accepted field s) ∧
  parse_excel_file
    (Workbook (mkDataFrame [HNumber 2024; HNumber 2025] [[CStr "Acme"; CInt 5000]]))
  = Ok ([], ["Failed to read Excel file: Can only use .str accessor with string values!"]) ∧
  parse_excel_file (Workbook (mkDataFrame [] []))
  = Ok ([], ["Failed to read Excel file: Can only use .str accessor with string values!"]).
Proof.
  split_and!; [|by vm_compute..].
  intros field s Hs. apply elem_of_cons in Hs as [?|Hs]; [done|].
  apply elem_of_cons in Hs as [?|Hs]; [done|]. by apply elem_of_nil in Hs.
Qed.

(** C10: [parse_excel_file] returns a pair (rows, errors) for every
    input and raises nothing. A file that cannot be read, or whose
    headers cannot be normalised, gives no row and one error string; a
    table whose required columns are present gives the rows [_parse_row]
    could build, in table order, and one error string "Row n: ..." for
    each data line on which it raised, so that such a line is missing
    from the rows. The last part exhibits a table with more data lines
    than returned rows. *)
Theorem parse_excel_file_returns :
  (∀ file_obj, ∃ rows errors,
     parse_excel_file file_obj = Ok (rows, errors) ∧
     match file_obj with
     | Unreadable msg =>
         rows = [] ∧ errors = ["Failed to read Excel file: " +:+ msg]
     | Workbook df =>
         match str_lower (columns df) with
         | Raise msg =>
             rows = [] ∧ errors = ["Failed to read Excel file: " +:+ msg]
         | Ok lowered =>
             let df' := mkDataFrame (str_strip lowered) (data df) in
             let column_map := _build_column_map (text_labels (columns df')) in
             if bool_decide (missing_columns column_map ≠ [])
             then rows = [] ∧ length errors = 1%nat
             else rows = parsed_rows column_map (iterrows df') ∧
                  errors = row_errors column_map (iterrows df') ∧
                  (length rows + length errors = length (data df))%nat
         end
     end) ∧
  (∃ df rows errors,
     parse_excel_file (Workbook df) = Ok (rows, errors) ∧
     (length rows < length (data df))%nat ∧
     errors = ["Row 2: " +:+ ambiguous_truth_value]).
Proof.
  split.
  - intros [msg|df].
    + by exists [], ["Failed to read Excel file: " +:+ msg].
    + unfold parse_excel_file. cbn [read_excel try_except mbind exc_bind columns data].
      destruct (str_lower (columns df)) as [lowered|msg];
        cbn [try_except mbind exc_bind columns data mret exc_ret app].
      * case_bool_decide as Hmissing; cbn [app mret exc_ret].
        -- by eexists _, _.
        -- rewrite for_in_parse_step. eexists _, _. split; [done|].
           cbn [app]. split_and!; [done|done|].
           rewrite parsed_rows_row_errors_length.
           exact (iterrows_length (mkDataFrame (str_strip lowered) (data df))).
      * by eexists _, _.
  - exists (mkDataFrame (HText <$> ["Company"; "company"; "Event"; "Total"])
              [[CStr "Acme"; CStr "Acme Inc"; CStr "ASCO"; CStr "$5"]]), [],
      ["Row 2: " +:+ ambiguous_truth_value].
    split; [by vm_compute|]. split; [simpl; lia|done].
Qed.

End Ingestion.

(** ** Row normalizer *)

Section RowNormalizer.

Implicit Types (row : Series) (column_map : gmap string string) (val : cell).

Lemma filter_label_absent row (col : string) :
  col ∉ row.*1 → filter (λ lc : string * cell, lc.1 = col) row = [].
Proof.
  induction row as [|[l c] row IH]; intros Hcol; [done|].
  rewrite fmap_cons, not_elem_of_cons in Hcol. destruct Hcol as [Hne Hcol].
  rewrite filter_cons_False; [by apply IH|]. simpl in *. congruence.
Qed.

Lemma filter_label_distinct row (col : string) :
  NoDup row.*1 →
  (length (filter (λ lc : string * cell, lc.1 = col) row) ≤ 1)%nat.
Proof.
  induction row as [|[l c] row IH]; intros Hrow; [simpl; lia|].
  rewrite fmap_cons in Hrow. apply NoDup_cons in Hrow as [Hl Hrow].
  destruct (decide (l = col)) as [->|Hne].
  - rewrite filter_cons_True; [|done].
    rewrite filter_label_absent; [simpl; lia|done].
  - rewrite filter_cons_False; [by apply IH|]. simpl. congruence.
Qed.

(** With distinct labels [row.get(col)] is never a sub-series. *)
Lemma Series_get_distinct row col :
  NoDup row.*1 →
  Series_get row col = Absent ∨ ∃ val, Series_get row col = Scalar val.
Proof.
  intros Hrow. unfold Series_get.
  pose proof (filter_label_distinct row col Hrow) as Hlen.
  destruct (filter _ row) as [|lc [|lc' lcs]]; simpl in Hlen;
    [by left|right; by eexists|lia].
Qed.

Lemma get_value_distinct row column_map field default :
  NoDup row.*1 →
  get_value row column_map field default
  = Ok (coerce default (cell_at row column_map field)).
Proof.
  intros Hrow. unfold get_value, cell_at.
  destruct (column_map !! field) as [col|]; [|done].
  by destruct (Series_get_distinct row col Hrow) as [->|[val ->]].
Qed.

Lemma VStr_eqb (a b : string) : bool_decide (VStr a = VStr b) = String.eqb a b.
Proof.
  case_bool_decide as H.
  - injection H as ->. by rewrite String.eqb_refl.
  - symmetry. apply String.eqb_neq. congruence.
Qed.

(** The error list [_parse_row] builds from the three required cells. *)
Lemma parse_row_distinct row column_map (number : Z) :
  NoDup row.*1 →
  ∃ excel_row,
    _parse_row row column_map number = Ok excel_row ∧
    errors excel_row
    = (if blank (cell_at row column_map "exhibitor_invite")
          || zero (cell_at row column_map "exhibitor_invite")
       then ["Missing company name"] else [])
      ++ (if blank (cell_at row column_map "event_name")
             || zero (cell_at row column_map "event_name")
          then ["Missing event name"] else [])
      ++ (if blank (cell_at row column_map "total")
             || zero (cell_at row column_map "total")
             || zero_text (cell_at row column_map "total")
          then ["Missing or invalid total"] else []) ∧
    exhibitor_invite excel_row = coerce (VStr "") (cell_at row column_map "exhibitor_invite") ∧
    event_name excel_row = coerce (VStr "") (cell_at row column_map "event_name") ∧
    total excel_row = str (coerce (VStr "0") (cell_at row column_map "total")) ∧
    official_address excel_row = coerce VNone (cell_at row column_map "official_address") ∧
    expected_attendance excel_row = coerce VNone (cell_at row column_map "expected_attendance") ∧
    row_number excel_row = number ∧
    matched_event excel_row = None.
Proof.
  intros Hrow. unfold _parse_row.
  rewrite !(get_value_distinct _ _ _ _ Hrow). cbn [mbind exc_bind mret exc_ret].
  eexists. split; [done|].
  generalize (cell_at row column_map "exhibitor_invite") as c1.
  generalize (cell_at row column_map "event_name") as c2.
  generalize (cell_at row column_map "total") as c3.
  intros c3 c2 c1.
  assert (∀ val, negb (truthy (coerce (VStr "") val)) = blank val || zero val) as Hfalsy.
  { intros [| | | | |]; simpl; try done; by rewrite ?negb_involutive, ?orb_false_r. }
  assert (negb (truthy (coerce (VStr "0") c3)) || bool_decide (coerce (VStr "0") c3 = VStr "0")
          = blank c3 || zero c3 || zero_text c3) as Htotal.
  { destruct c3 as [|s|n|b|x|s]; simpl;
      rewrite ?negb_involutive, ?orb_false_r, ?orb_false_l; try done.
    - by rewrite VStr_eqb.
    - by rewrite VStr_eqb. }
  rewrite !Hfalsy, Htotal.
  destruct (blank c1 || zero c1), (blank c2 || zero c2),
    (blank c3 || zero c3 || zero_text c3); done.
Qed.




(** C4 (amended): for every raw record with pairwise distinct column
    labels, [_parse_row] keeps the total as its text, unparsed, and
    records "Missing or invalid total" exactly when the total cell is
    missing, blank, a numeric zero or the text "0"; a total cell holding
    any other text, with or without digits, records no error. *)
Theorem parse_row_total_check row column_map (number : Z) :
  NoDup row.*1 →
  ∃ excel_row,
    _parse_row row column_map number = Ok excel_row ∧
    total excel_row = str (coerce (VStr "0") (cell_at row column_map "total")) ∧
    ("Missing or invalid total" ∈ errors excel_row ↔
     blank (cell_at row column_map "total") || zero (cell_at row column_map "total")
       || zero_text (cell_at row column_map "total") = true) ∧
    ∀ s, cell_at row column_map "total" = CStr s →
         strip s ≠ "" → strip s ≠ "0" →
         total excel_row = strip s ∧ "Missing or invalid total" ∉ errors excel_row.
Proof.
  intros Hrow.
  destruct (parse_row_distinct row column_map number Hrow)
    as (excel_row & Hok & Herrors & _ & _ & Htotal & _).
  assert ("Missing or invalid total" ∈ errors excel_row ↔
          blank (cell_at row column_map "total") || zero (cell_at row column_map "total")
            || zero_text (cell_at row column_map "total") = true) as Hiff.
  { rewrite Herrors.
    destruct (blank _ || zero _), (blank _ || zero _), (blank _ || zero _ || zero_text _);
      simpl; rewrite ?elem_of_cons, ?elem_of_nil; intuition congruence. }
  exists excel_row. split_and!; [done|done|done|].
  intros s Hs Hblank Hzero. rewrite Htotal, Hs. split; [done|].
  rewrite Hiff, Hs. simpl.
  apply String.eqb_neq in Hblank, Hzero. by rewrite Hblank, Hzero.
Qed.

Lemma parse_row_total_check_witness :
  NoDup Demo.text_total_record.*1 ∧
  ∃ excel_row,
    _parse_row Demo.text_total_record Demo.text_total_map 2 = Ok excel_row ∧
    total excel_row = "abc" ∧
    "Missing or invalid total" ∉ errors excel_row.
Proof.
  assert (NoDup Demo.text_total_record.*1) as Hrow.
  { apply (bool_decide_unpack _). vm_compute. exact I. }
  split; [exact Hrow|].
  destruct (parse_row_total_check Demo.text_total_record Demo.text_total_map 2 Hrow)
    as (excel_row & Hok & _ & _ & Htext).
  exists excel_row. split; [exact Hok|].
  apply (Htext " abc "); [reflexivity|discriminate|discriminate].
Defined.

(** C4, as stated, fails: a row whose total cell is the text "abc"
    leaves normalization without any error. *)
Lemma parse_row_accepts_text_total :
  ∃ excel_row,
    _parse_row [("company", CStr "Acme"); ("event", CStr "ASCO 2025"); ("total", CStr "abc")]
      (_build_column_map ["company"; "event"; "total"]) 2 = Ok excel_row ∧
    total excel_row = "abc" ∧
    errors excel_row = [] ∧
    has_errors excel_row = false.
Proof. eexists. split; [by vm_compute|done]. Qed.

End RowNormalizer.

(** ** Event matcher *)

Section Matching.

Context (M : EventMatcher).

Lemma add_error_errors row msg : errors (add_error row msg) = errors row ++ [msg].
Proof. done. Qed.

Lemma add_error_matched_event row msg :
  matched_event (add_error row msg) = matched_event row.
Proof. done. Qed.

Lemma match_events_lookup rows (i : nat) :
  match_events M rows !! i = match_row M (get_all_events M) <$> rows !! i.
Proof. unfold match_events. apply list_lookup_fmap. Qed.

(** C9 (amended): [match_events] leaves [matched_event] as it was and
    appends one error to a row it cannot match: "No event name provided"
    when the event text is empty, and "Could not match event: <text>"
    when the text is not empty and the matcher finds no acceptable
    candidate. *)
Theorem match_events_unmatched rows (i : nat) row :
  rows !! i = Some row →
  ∃ row',
    match_events M rows !! i = Some row' ∧
    (truthy (event_name row) = false →
     matched_event row' = matched_event row ∧
     errors row' = errors row ++ ["No event name provided"]) ∧
    (truthy (event_name row) = true →
     find_best_match M (event_name row) (get_all_events M) = None →
     matched_event row' = matched_event row ∧
     errors row' = errors row ++ ["Could not match event: " +:+ str (event_name row)]).
Proof.
  intros Hrow. exists (match_row M (get_all_events M) row).
  split; [by rewrite match_events_lookup, Hrow|].
  unfold match_row. split.
  - by intros ->.
  - by intros -> ->.
Qed.

End Matching.

Lemma match_events_unmatched_witness :
  [Demo.no_event_row; Demo.unknown_event_row] !! 1%nat = Some Demo.unknown_event_row ∧
  ∃ row',
    match_events Demo.matcher [Demo.no_event_row; Demo.unknown_event_row] !! 1%nat
    = Some row' ∧
    matched_event row' = None ∧
    errors row' = ["Could not match event: Unknown Summit"].
Proof.
  split; [reflexivity|].
  destruct (match_events_unmatched Demo.matcher
              [Demo.no_event_row; Demo.unknown_event_row] 1 Demo.unknown_event_row eq_refl)
    as (row' & Hrow' & _ & Hnone).
  exists row'. split; [exact Hrow'|].
  apply Hnone; reflexivity.
Defined.

(** C9, as stated, fails for an empty event text: the error appended is
    "No event name provided", not "Could not match event: ". *)
Lemma match_events_empty_text :
  ∃ row',
    match_events Demo.matcher [Demo.no_event_row] = [row'] ∧
    event_name Demo.no_event_row = VStr "" ∧
    matched_event row' = None ∧
    errors row' = ["Missing event name"; "No event name provided"] ∧
    "Could not match event: " ∉ errors row'.
Proof.
  eexists. split; [by vm_compute|]. split_and!; [done..|].
  cbn. rewrite !elem_of_cons, elem_of_nil. intuition discriminate.
Qed.

(** ** Batch assembler *)

Section BatchAssembler.

Context (G : Generators) (document_type signatory_key : string).

Implicit Types (rows : list ExcelRow) (row : ExcelRow) (b : Batch).

#[local] Abbreviation step := (batch_step G document_type signatory_key).
#[local] Abbreviation batch rows := (generate_batch_documents G rows document_type signatory_key).
#[local] Abbreviation ok row := (succeeds G document_type signatory_key row).
#[local] Abbreviation calls := (calls_of G document_type signatory_key).
#[local] Abbreviation entries := (entries_of G document_type signatory_key).
#[local] Abbreviation after := (row_after G document_type signatory_key).

(** The [try] block writes either nothing or the docx and pdf entries of
    the row, and calls the renderer at most once, with the payload built
    from the row. *)
Lemma try_generate_inv row ev :
  matched_event row = Some ev →
  ((try_generate G document_type signatory_key row ev).1 = [] ∨
   ∃ payload,
     build_payload G document_type signatory_key row ev = Ok payload ∧
     (try_generate G document_type signatory_key row ev).1
     = [render_call document_type signatory_key payload]) ∧
  ∀ written,
    (try_generate G document_type signatory_key row ev).2 = Ok written →
    ∃ docx_buffer pdf_buffer,
      archive_names document_type row <> [] ∧
      written = zip (archive_names document_type row) [docx_buffer; pdf_buffer] ∧
      length written = 2%nat.
Proof.
  intros Hev. unfold try_generate.
  destruct (build_payload G document_type signatory_key row ev) as [payload|e];
    simpl; [|split; [by left|done]].
  destruct (render G _) as [[docx_buffer pdf_buffer]|e]; simpl.
  - split; [right; by exists payload|].
    intros written Hwritten. exists docx_buffer, pdf_buffer.
    unfold archive_names. destruct (company_slug row) as [slug|e]; simpl in *; [|done].
    injection Hwritten as <-. by rewrite Hev.
  - split; [right; by exists payload|done].
Qed.

Lemma batch_step_parts b row :
  step b row
  = mkBatch (zipf b ++ entries row)
      (success_count b + (if ok row then 1 else 0))
      (error_count b + (if ok row then 0 else 1))
      (rendered b ++ calls row)
      (rows_after b ++ [after row]).
Proof.
  unfold batch_step, skip_row, succeeds, calls_of, entries_of, row_after.
  destruct (has_errors row); simpl.
  { rewrite !app_nil_r. f_equal; lia. }
  destruct (matched_event row) as [ev|]; simpl.
  2: { rewrite !app_nil_r. f_equal; lia. }
  destruct (try_generate G document_type signatory_key row ev) as [cs [written|e]];
    simpl; rewrite ?app_nil_r; f_equal; lia.
Qed.

(** The loop, as the sum of what its rows add. *)
Lemma batch_fold rows b :
  foldl step b rows
  = mkBatch (zipf b ++ rows ≫= entries)
      (success_count b + length (filter (λ row, ok row = true) rows))
      (error_count b + length (filter (λ row, ok row = false) rows))
      (rendered b ++ rows ≫= calls)
      (rows_after b ++ (after <$> rows)).
Proof.
  revert b. induction rows as [|row rows IH]; intros b; simpl.
  - rewrite !app_nil_r. destruct b; simpl; f_equal; lia.
  - rewrite IH, batch_step_parts. simpl. rewrite <- !app_assoc. simpl.
    rewrite !filter_cons. destruct (ok row); simpl;
      repeat case_decide; try done; simpl; f_equal; lia.
Qed.

Lemma batch_parts rows :
  batch rows
  = mkBatch (rows ≫= entries)
      (length (filter (λ row, ok row = true) rows))
      (length (filter (λ row, ok row = false) rows))
      (rows ≫= calls)
      (after <$> rows).
Proof. unfold generate_batch_documents. by rewrite batch_fold. Qed.




Lemma filter_succeeds_length rows :
  (length (filter (λ row, ok row = true) rows)
   + length (filter (λ row, ok row = false) rows) = length rows)%nat.
Proof.
  induction rows as [|row rows IH]; [done|].
  rewrite !filter_cons. destruct (ok row); repeat case_decide; try done; simpl; lia.
Qed.

Lemma bind_filter_clean {B : Type} (f : ExcelRow → list B) rows :
  (∀ row, has_errors row = true → f row = []) →
  rows ≫= f = filter (λ row, has_errors row = false) rows ≫= f.
Proof.
  intros Hf. induction rows as [|row rows IH]; [done|].
  rewrite filter_cons, bind_cons, IH. case_decide as Hrow.
  - by rewrite bind_cons.
  - rewrite Hf; [done|]. by destruct (has_errors row).
Qed.

Lemma succeeds_clean row : ok row = true → has_errors row = false.
Proof. unfold succeeds. by destruct (has_errors row). Qed.

Lemma filter_succeeds_clean rows :
  filter (λ row, ok row = true) (filter (λ row, has_errors row = false) rows)
  = filter (λ row, ok row = true) rows.
Proof.
  induction rows as [|row rows IH]; [done|].
  rewrite !filter_cons. case_decide as Hclean.
  - rewrite filter_cons, IH. done.
  - rewrite IH. case_decide as Hok; [|done].
    apply succeeds_clean in Hok. done.
Qed.

Lemma errors_not_succeeds row : has_errors row = true → ok row = false.
Proof. unfold succeeds. by intros ->. Qed.

Lemma filter_failed_split rows :
  length (filter (λ row, ok row = false) rows)
  = (length (filter (λ row, has_errors row = true) rows)
     + length (filter (λ row, ok row = false)
                 (filter (λ row, has_errors row = false) rows)))%nat.
Proof.
  induction rows as [|row rows IH]; [done|].
  rewrite !filter_cons. destruct (has_errors row) eqn:Hrow.
  - rewrite (errors_not_succeeds row Hrow).
    repeat case_decide; try done. simpl. lia.
  - repeat case_decide; try done; rewrite filter_cons; case_decide; try done;
      simpl; lia.
Qed.

Lemma calls_provenance row call :
  call ∈ calls row →
  ∃ ev payload,
    has_errors row = false ∧ matched_event row = Some ev ∧
    build_payload G document_type signatory_key row ev = Ok payload ∧
    call = render_call document_type signatory_key payload.
Proof.
  unfold calls_of. destruct (has_errors row); [by intros ?%elem_of_nil|].
  destruct (matched_event row) as [ev|] eqn:Hev; [|by intros ?%elem_of_nil].
  destruct (try_generate_inv row ev Hev) as [[->|(payload & Hpayload & ->)] _].
  - by intros ?%elem_of_nil.
  - intros ->%list_elem_of_singleton. by exists ev, payload.
Qed.

(** C1: a row whose errors list is not empty is counted as a failure
    and skipped: the loop body changes nothing but [error_count]; the
    archive, the calls made to the renderer and [success_count] of a
    batch are those of the batch over its error-free rows alone, every
    row with errors adding one to [error_count]; and every payload
    handed to the renderer was built from a row without errors. *)
Theorem batch_skips_rows_with_errors rows :
  let b := batch rows in
  let b' := batch (filter (λ row, has_errors row = false) rows) in
  (∀ b0 row, has_errors row = true →
             step b0 row
             = mkBatch (zipf b0) (success_count b0) (S (error_count b0))
                 (rendered b0) (rows_after b0 ++ [row])) ∧
  zipf b = zipf b' ∧
  rendered b = rendered b' ∧
  success_count b = success_count b' ∧
  error_count b
  = (length (filter (λ row, has_errors row = true) rows) + error_count b')%nat ∧
  (∀ call, call ∈ rendered b →
     ∃ row ev payload,
       row ∈ rows ∧ has_errors row = false ∧ matched_event row = Some ev ∧
       build_payload G document_type signatory_key row ev = Ok payload ∧
       call = render_call document_type signatory_key payload) ∧
  (∀ (i : nat) row, rows !! i = Some row → has_errors row = true →
                    rows_after b !! i = Some row).
Proof.
  intros b b'. unfold b, b'. rewrite !batch_parts. cbn [zipf rendered success_count error_count rows_after].
  split_and!.
  - intros b0 row Hrow. unfold batch_step. by rewrite Hrow.
  - apply bind_filter_clean. intros row Hrow. unfold entries_of. by rewrite Hrow.
  - apply bind_filter_clean. intros row Hrow. unfold calls_of. by rewrite Hrow.
  - by rewrite filter_succeeds_clean.
  - apply filter_failed_split.
  - intros call (row & Hcall & Hrow)%list_elem_of_bind.
    destruct (calls_provenance row call Hcall)
      as (ev & payload & Hclean & Hev & Hpayload & Heq).
    by exists row, ev, payload.
  - intros i row Hi Hrow. rewrite list_lookup_fmap, Hi. simpl.
    unfold row_after. by rewrite Hrow.
Qed.



End BatchAssembler.

(** ** Validation report *)

Section Report.

Implicit Types (rows : list ExcelRow) (row : ExcelRow).









End Report.

(** ** The batch and its report *)

Section BatchResult.

Context (G : Generators) (document_type signatory_key : string).

Implicit Types (rows : list ExcelRow) (row : ExcelRow).

(** The address of a payload is the row's address, or the empty string
    when the row has none, whatever the document type. *)
Lemma build_payload_address row ev payload :
  build_payload G document_type signatory_key row ev = Ok payload →
  p_company_address payload = Py.or (official_address row) (VStr "").
Proof.
  unfold build_payload.
  destruct (signatory_info G signatory_key) as [info|e]; simpl; [|done].
  destruct (get_total_amount G row) as [amount|e]; simpl; [|done].
  by intros [= <-].
Qed.


End BatchResult.


(** C5 fails on the code: an error-free, matched row without address,
    processed as LOA, is resolved into a payload whose company address
    is the empty string; the payload goes to the LOA renderer and the
    row counts as a success, with no error recorded. *)
Theorem loa_payload_built_with_empty_address :
  let absent := Demo.row_of "Acme Corp" "ASCO Direct from Chicago 2025" VNone 2 in
  let empty := Demo.row_of "Beta LLC" "ASCO Direct from Chicago 2025" (VStr "") 3 in
  let b := generate_batch_documents Demo.generators [absent; empty] "LOA" "sarah" in
  has_errors absent = false ∧ has_errors empty = false ∧
  (∃ payload1 payload2,
     rendered b = [CallLOA payload1 "sarah"; CallLOA payload2 "sarah"] ∧
     p_document_type payload1 = "LOA" ∧ p_company_address payload1 = VStr "" ∧
     p_document_type payload2 = "LOA" ∧ p_company_address payload2 = VStr "") ∧
  success_count b = 2%nat ∧ error_count b = 0%nat ∧
  rows_after b = [absent; empty] ∧
  (zipf b).*1
  = ["LOA_Acme_Corp_ASCO_Direct_from_Chicago_2025.docx";
     "LOA_Acme_Corp_ASCO_Direct_from_Chicago_2025.pdf";
     "LOA_Beta_LLC_ASCO_Direct_from_Chicago_2025.docx";
     "LOA_Beta_LLC_ASCO_Direct_from_Chicago_2025.pdf"].
Proof.
  cbv zeta. split_and!; [done|done| |by vm_compute..].
  eexists _, _. split; [by vm_compute|done].
Qed.

(** C6 fails on the code: two rows of the same company and event are
    archived under the same two names. *)
Theorem archive_names_collide :
  let first := Demo.row_of "Acme Corp" "ASCO Direct from Chicago 2025" (VStr "1 Main St") 2 in
  let second := Demo.row_of "Acme Corp" "ASCO Direct from Chicago 2025" (VStr "9 Side St") 3 in
  let b := generate_batch_documents Demo.generators [first; second] "LOR" "sarah" in
  success_count b = 2%nat ∧ error_count b = 0%nat ∧
  (zipf b).*1
  = ["LOR_Acme_Corp_ASCO_Direct_from_Chicago_2025.docx";
     "LOR_Acme_Corp_ASCO_Direct_from_Chicago_2025.pdf";
     "LOR_Acme_Corp_ASCO_Direct_from_Chicago_2025.docx";
     "LOR_Acme_Corp_ASCO_Direct_from_Chicago_2025.pdf"] ∧
  ¬ NoDup (zipf b).*1.
Proof.
  cbv zeta.
  assert ((zipf (generate_batch_documents Demo.generators
                   [Demo.row_of "Acme Corp" "ASCO Direct from Chicago 2025" (VStr "1 Main St") 2;
                    Demo.row_of "Acme Corp" "ASCO Direct from Chicago 2025" (VStr "9 Side St") 3]
                   "LOR" "sarah")).*1
          = ["LOR_Acme_Corp_ASCO_Direct_from_Chicago_2025.docx";
             "LOR_Acme_Corp_ASCO_Direct_from_Chicago_2025.pdf";
             "LOR_Acme_Corp_ASCO_Direct_from_Chicago_2025.docx";
             "LOR_Acme_Corp_ASCO_Direct_from_Chicago_2025.pdf"]) as Hnames
    by by vm_compute.
  rewrite Hnames. split_and!; [by vm_compute|by vm_compute|done|].
  intros Hdup. apply NoDup_cons in Hdup as [Hnotin _].
  apply Hnotin. set_solver.
Qed.

(** ** The pipeline on a three-line table *)

(** Ingestion, matching and batch on the table of the end-to-end
    scenario: one success, two failures, two archive entries, and the
    two failed rows reported in row order. *)
Example three_line_scenario :
  ∃ rows,
    parse_excel_file Demo.three_lines = Ok (rows, []) ∧
    let b := generate_batch_documents Demo.generators
               (match_events Demo.matcher rows) "LOR" "sarah" in
    success_count b = 1%nat ∧ error_count b = 2%nat ∧
    (zipf b).*1 = ["LOR_Sample_Company_Inc._ASCO_Direct_from_Chicago_2025.docx";
                   "LOR_Sample_Company_Inc._ASCO_Direct_from_Chicago_2025.pdf"] ∧
    errors <$> rows_after b
    = [[]; ["Missing or invalid total"]; ["Could not match event: Unknown Summit"]] ∧
    length (rendered b) = 1%nat.
Proof. eexists. split; [by vm_compute|]. by vm_compute. Qed.

(** The amounts of the unit test of [get_total_amount]. *)
Example total_amount_formats :
  Demo.total_amount (Demo.row_of "Test" "Test Event" VNone 2)
  = Ok (PyFloat false "5000.00") ∧
  Demo.total_amount Demo.blank_parsed = Ok (PyFloat false "5000.00") ∧
  ∃ msg, Demo.total_amount
           (mkExcelRow (VStr "Test") (VStr "Test Event") "abc" VNone VNone VNone
              VNone VNone VNone VNone VNone 2 [] None) = Raise msg.
Proof. split_and!; [by vm_compute..|]. eexists. by vm_compute. Qed.

(** * Further properties *)

(** ** Schema resolver *)

Section ColumnMap.

Implicit Types (columns variations : list string) (field col : string).

Lemma is_variation_intro field variations col :
  (field, variations) ∈ COLUMN_MAPPINGS → col ∈ variations → is_variation col = true.
Proof.
  intros Hfv Hcol. unfold is_variation. apply existsb_exists.
  exists (field, variations). split; [by apply list_elem_of_In|].
  by apply bool_decide_eq_true.
Qed.

(** [_build_column_map] maps only canonical fields, and only to a column
    of the table that is one of the field's synonyms: a field outside
    [COLUMN_MAPPINGS] is never a key, and no column name is made up. *)
Theorem build_column_map_sound columns field col :
  _build_column_map columns !! field = Some col →
  col ∈ columns ∧
  ∃ variations, (field, variations) ∈ COLUMN_MAPPINGS ∧ col ∈ variations.
Proof.
  rewrite build_column_map_lookup.
  destruct (variations_of field) as [v|] eqn:Hv; simpl; [|done].
  intros (i & Hi & Hcol & _)%first_matching_Some.
  split; [by eapply list_elem_of_lookup_2|].
  exists v. split; [by apply variations_of_Some|done].
Qed.

Lemma build_column_map_sound_witness :
  _build_column_map ["notes"; "company"; "event"; "price"] !! "total" = Some "price" ∧
  "price" ∈ ["notes"; "company"; "event"; "price"] ∧
  ∃ variations, ("total", variations) ∈ COLUMN_MAPPINGS ∧ "price" ∈ variations.
Proof.
  assert (_build_column_map ["notes"; "company"; "event"; "price"] !! "total"
          = Some "price") as H by (vm_compute; reflexivity).
  split; [exact H|].
  exact (build_column_map_sound ["notes"; "company"; "event"; "price"] "total" "price" H).
Defined.

Lemma first_matching_filter variations columns :
  (∀ col, col ∈ variations → is_variation col = true) →
  first_matching variations (filter (λ col, is_variation col = true) columns)
  = first_matching variations columns.
Proof.
  intros Hv. unfold first_matching.
  induction columns as [|c columns IH]; [done|].
  rewrite filter_cons. case_decide as Hc; simpl.
  - case_bool_decide; [done|apply IH].
  - rewrite IH. case_bool_decide as Hin; [|done].
    by apply Hv in Hin.
Qed.

(** Columns that are no synonym of any field play no part: the column
    map of a table is the column map of its recognised columns alone. *)
Theorem build_column_map_ignores_other_columns columns :
  _build_column_map (filter (λ col, is_variation col = true) columns)
  = _build_column_map columns.
Proof.
  apply map_eq. intros field. rewrite !build_column_map_lookup.
  destruct (variations_of field) as [v|] eqn:Hv; simpl; [|done].
  apply first_matching_filter. intros col Hcol.
  apply variations_of_Some in Hv. by eapply is_variation_intro.
Qed.

End ColumnMap.

(** ** Row normalizer and ingestion *)

Section Normalization.

Implicit Types (row : Series) (column_map : gmap string string) (val : cell).

(** A record with distinct labels is error-free after [_parse_row]
    exactly when its company and event cells are neither blank nor zero
    and its total cell is neither blank, nor zero, nor the text "0": the
    optional cells never make a row fail. *)
Theorem parse_row_clean row column_map (number : Z) :
  NoDup row.*1 →
  ∃ excel_row,
    _parse_row row column_map number = Ok excel_row ∧
    (has_errors excel_row = false ↔
     blank (cell_at row column_map "exhibitor_invite")
       || zero (cell_at row column_map "exhibitor_invite") = false ∧
     blank (cell_at row column_map "event_name")
       || zero (cell_at row column_map "event_name") = false ∧
     blank (cell_at row column_map "total") || zero (cell_at row column_map "total")
       || zero_text (cell_at row column_map "total") = false).
Proof.
  intros Hrow.
  destruct (parse_row_distinct row column_map number Hrow)
    as (excel_row & Hok & Herrors & _).
  exists excel_row. split; [done|]. unfold has_errors. rewrite Herrors.
  destruct (blank _ || zero _), (blank _ || zero _), (blank _ || zero _ || zero_text _);
    simpl; intuition congruence.
Qed.

Lemma parse_row_clean_witness :
  NoDup Demo.text_total_record.*1 ∧
  ∃ excel_row,
    _parse_row Demo.text_total_record Demo.text_total_map 2 = Ok excel_row ∧
    has_errors excel_row = false.
Proof.
  assert (NoDup Demo.text_total_record.*1) as Hrow.
  { apply (bool_decide_unpack _). vm_compute. exact I. }
  split; [exact Hrow|].
  destruct (parse_row_clean Demo.text_total_record Demo.text_total_map 2 Hrow)
    as (excel_row & Hok & Hclean).
  exists excel_row. split; [exact Hok|].
  apply Hclean. vm_compute. repeat split.
Defined.

Lemma labelled_labels (labels : list label) (cells : list cell) :
  (labelled labels cells).*1 `sublist_of` text_labels labels.
Proof.
  unfold labelled, text_labels. revert cells.
  induction labels as [|[l|] labels IH]; intros [|c cells]; cbn;
    try apply sublist_nil_l.
  - apply sublist_skip, IH.
  - apply IH.
Qed.

Lemma labelled_distinct (labels : list label) (cells : list cell) :
  NoDup (text_labels labels) → NoDup (labelled labels cells).*1.
Proof.
  intros Hlabels. exact (sublist_NoDup _ _ Hlabels (labelled_labels labels cells)).
Qed.

Lemma omap_all_Some {A B : Type} (g : A → option B) (P : A → B → Prop) (l : list A) :
  (∀ x, x ∈ l → ∃ y, g x = Some y ∧ P x y) → Forall2 P l (omap g l).
Proof.
  induction l as [|x l IH]; intros Hall; cbn [omap list_omap]; [constructor|].
  destruct (Hall x) as (y & -> & Hy); [left|].
  constructor; [done|]. apply IH. intros x' Hx'. apply Hall. by right.
Qed.

Lemma omap_all_None {A B : Type} (g : A → option B) (l : list A) :
  (∀ x, x ∈ l → g x = None) → omap g l = [].
Proof.
  induction l as [|x l IH]; intros Hall; cbn [omap list_omap]; [done|].
  rewrite (Hall x); [|left]. apply IH. intros x' Hx'. apply Hall. by right.
Qed.

(** When the lower-cased, stripped header texts are pairwise distinct
    and contain the three required columns, [parse_excel_file] reports
    no error and returns one row per data line, in table order, the line
    at index [i] numbered [i + 2] as in the spreadsheet. *)
Theorem parse_excel_file_all_lines (df : DataFrame header) :
  NoDup ((strip ∘ lower) <$> header_texts (columns df)) →
  missing_columns (_build_column_map ((strip ∘ lower) <$> header_texts (columns df))) = [] →
  ∃ rows,
    parse_excel_file (Workbook df) = Ok (rows, []) ∧
    length rows = length (data df) ∧
    ∀ (i : nat) excel_row,
      rows !! i = Some excel_row → row_number excel_row = Z.of_nat i + 2.
Proof.
  intros Hheaders Hmissing.
  assert (∃ s, HText s ∈ columns df) as Htext.
  { destruct (header_texts (columns df)) as [|s texts] eqn:Htexts;
      [by vm_compute in Hmissing|].
    exists s. apply header_texts_elem. rewrite Htexts. left. }
  rewrite <- normalised_text_labels in Hheaders, Hmissing.
  set (df' := mkDataFrame (str_strip (lower_header <$> columns df)) (data df)).
  set (column_map :=
         _build_column_map (text_labels (str_strip (lower_header <$> columns df)))).
  assert (∀ ir, ir ∈ iterrows df' →
            ∃ excel_row,
              _parse_row ir.2 column_map (ir.1 + 2) = Ok excel_row ∧
              row_number excel_row = ir.1 + 2) as Hlines.
  { intros ir (i & Hi)%list_elem_of_lookup_1. unfold iterrows in Hi.
    rewrite list_lookup_imap in Hi.
    destruct (data df' !! i) as [cells|]; [|done]. injection Hi as <-. simpl.
    destruct (parse_row_distinct
                (labelled (str_strip (lower_header <$> columns df)) cells)
                column_map (Z.of_nat i + 2)) as (excel_row & Hok & Hrest);
      [by apply labelled_distinct|].
    exists excel_row. split; [done|]. apply Hrest. }
  exists (parsed_rows column_map (iterrows df')).
  assert (row_errors column_map (iterrows df') = []) as Herrors.
  { apply omap_all_None. intros ir Hir.
    by destruct (Hlines ir Hir) as (excel_row & -> & _). }
  assert (Forall2 (λ (ir : Z * Series) excel_row, row_number excel_row = ir.1 + 2)
            (iterrows df') (parsed_rows column_map (iterrows df'))) as Hrows.
  { apply omap_all_Some. intros ir Hir.
    destruct (Hlines ir Hir) as (excel_row & -> & Hnumber). by exists excel_row. }
  split_and!.
  - unfold parse_excel_file.
    cbn [read_excel try_except mbind exc_bind columns data mret exc_ret].
    rewrite (str_lower_text (columns df) Htext).
    cbn [try_except mbind exc_bind columns data mret exc_ret].
    rewrite Hmissing.
    rewrite bool_decide_eq_false_2; [|by intros []].
    rewrite for_in_parse_step. unfold column_map, df' in Herrors.
    by rewrite Herrors.
  - rewrite <- (Forall2_length _ _ _ Hrows). exact (iterrows_length df').
  - intros i excel_row Hi.
    destruct (Forall2_lookup_r _ _ _ _ _ Hrows Hi) as (ir & Hir & ->).
    unfold iterrows in Hir. rewrite list_lookup_imap in Hir.
    destruct (data df' !! i); [|done]. by injection Hir as <-.
Qed.

Lemma parse_excel_file_all_lines_witness :
  let df := mkDataFrame [HText " Company"; HText "EVENT"; HNumber 2025; HText "Total "]
              [[CStr "Acme"; CStr "ASCO"; CNa; CStr "$5"];
               [CNa; CStr "ASCO"; CStr "late"; CInt 0]] in
  NoDup ((strip ∘ lower) <$> header_texts (columns df)) ∧
  missing_columns (_build_column_map ((strip ∘ lower) <$> header_texts (columns df))) = [] ∧
  ∃ rows, parse_excel_file (Workbook df) = Ok (rows, []) ∧ length rows = 2%nat.
Proof.
  intros df.
  assert (NoDup ((strip ∘ lower) <$> header_texts (columns df))) as Hheaders.
  { apply (bool_decide_unpack _). vm_compute. exact I. }
  assert (missing_columns
            (_build_column_map ((strip ∘ lower) <$> header_texts (columns df))) = [])
    as Hmissing by (vm_compute; reflexivity).
  split; [exact Hheaders|]. split; [exact Hmissing|].
  destruct (parse_excel_file_all_lines df Hheaders Hmissing)
    as (rows & Hok & Hlen & _).
  exists rows. split; [exact Hok|exact Hlen].
Defined.

End Normalization.

(** ** Event matcher *)

Section MatchEvents.

Context (M : EventMatcher).

Implicit Types (rows : list ExcelRow) (row : ExcelRow).

(** A row with an event text for which the matcher finds an event gets
    the name, date, venue, city and year of that event as its
    [matched_event], and no error. *)
Theorem match_events_matched rows (i : nat) row matched :
  rows !! i = Some row →
  truthy (event_name row) = true →
  find_best_match M (event_name row) (get_all_events M) = Some matched →
  ∃ row',
    match_events M rows !! i = Some row' ∧
    matched_event row'
    = Some (mkMatchedEvent (ev_meeting_name matched) (ev_meeting_date_long matched)
              (ev_venue matched) (ev_city_state matched) (get_year M matched)) ∧
    errors row' = errors row.
Proof.
  intros Hrow Htext Hmatch. exists (match_row M (get_all_events M) row).
  split; [by rewrite match_events_lookup, Hrow|].
  unfold match_row. by rewrite Htext, Hmatch.
Qed.

Lemma match_row_frame all_events row :
  let row' := match_row M all_events row in
  errors row `prefix_of` errors row' ∧
  (length (errors row') ≤ S (length (errors row)))%nat ∧
  exhibitor_invite row' = exhibitor_invite row ∧
  event_name row' = event_name row ∧
  total row' = total row ∧
  company_name row' = company_name row ∧
  official_address row' = official_address row ∧
  expected_attendance row' = expected_attendance row ∧
  row_number row' = row_number row ∧
  date row' = date row ∧
  city row' = city row ∧
  venue row' = venue row ∧
  amount row' = amount row ∧
  discount row' = discount row.
Proof.
  unfold match_row.
  destruct (truthy (event_name row)); simpl;
    [destruct (find_best_match M (event_name row) all_events); simpl|];
    split_and!; try done; try (by apply prefix_app_r); rewrite ?length_app; simpl; lia.
Qed.

(** [match_events] returns as many rows as it is given, in the same
    order; on each row it only appends to [errors], at most one message,
    and leaves all twelve attributes read from the table as they are. *)
Theorem match_events_frame rows :
  length (match_events M rows) = length rows ∧
  ∀ (i : nat) row,
    rows !! i = Some row →
    ∃ row',
      match_events M rows !! i = Some row' ∧
      errors row `prefix_of` errors row' ∧
      (length (errors row') ≤ S (length (errors row)))%nat ∧
      exhibitor_invite row' = exhibitor_invite row ∧
      event_name row' = event_name row ∧
      total row' = total row ∧
      company_name row' = company_name row ∧
      official_address row' = official_address row ∧
      expected_attendance row' = expected_attendance row ∧
      row_number row' = row_number row ∧
      date row' = date row ∧
      city row' = city row ∧
      venue row' = venue row ∧
      amount row' = amount row ∧
      discount row' = discount row.
Proof.
  split; [apply length_fmap|].
  intros i row Hrow. exists (match_row M (get_all_events M) row).
  split; [by rewrite match_events_lookup, Hrow|]. apply match_row_frame.
Qed.

(** After [match_events], a row without errors has a matched event: the
    rows that could not be matched all carry an error. *)
Theorem match_events_clean_is_matched rows row' :
  row' ∈ match_events M rows →
  has_errors row' = false →
  is_Some (matched_event row').
Proof.
  unfold match_events. intros (row & -> & _)%list_elem_of_fmap.
  unfold match_row, has_errors.
  destruct (truthy (event_name row)); simpl.
  - destruct (find_best_match M (event_name row) (get_all_events M)); simpl; [by eexists|].
    by destruct (errors row).
  - by destruct (errors row).
Qed.

(** For a record with pairwise distinct column labels, a blank event
    cell is reported twice: [_parse_row] records "Missing event name",
    and [match_events] then appends "No event name provided" without
    looking for a match. *)
Theorem blank_event_reported_twice (record : Series) column_map (number : Z) :
  NoDup record.*1 →
  blank (cell_at record column_map "event_name") = true →
  ∃ excel_row row',
    _parse_row record column_map number = Ok excel_row ∧
    match_events M [excel_row] = [row'] ∧
    "Missing event name" ∈ errors excel_row ∧
    errors row' = errors excel_row ++ ["No event name provided"] ∧
    matched_event row' = None.
Proof.
  intros Hrecord Hblank.
  destruct (parse_row_distinct record column_map number Hrecord)
    as (excel_row & Hok & Herrors & _ & Hevent & _ & _ & _ & _ & Hmatched).
  assert (truthy (event_name excel_row) = false) as Htext.
  { rewrite Hevent. destruct (cell_at record column_map "event_name");
      simpl in *; try done. all: by rewrite Hblank. }
  exists excel_row, (match_row M (get_all_events M) excel_row).
  split_and!; [done|done| | |].
  - rewrite Herrors, Hblank. simpl. set_solver.
  - unfold match_row. by rewrite Htext.
  - unfold match_row. by rewrite Htext.
Qed.

End MatchEvents.

Lemma match_events_matched_witness :
  [Demo.row_of "Acme" "asco direct from chicago 2025" VNone 2] !! 0%nat
  = Some (Demo.row_of "Acme" "asco direct from chicago 2025" VNone 2) ∧
  ∃ row',
    match_events Demo.matcher [Demo.row_of "Acme" "asco direct from chicago 2025" VNone 2]
      !! 0%nat = Some row' ∧
    matched_event row'
    = Some (mkMatchedEvent "ASCO Direct from Chicago 2025" "June 7, 2025" "Marriott"
              "Chicago, IL" 2025) ∧
    errors row' = [].
Proof.
  split; [reflexivity|].
  exact (match_events_matched Demo.matcher
           [Demo.row_of "Acme" "asco direct from chicago 2025" VNone 2] 0
           (Demo.row_of "Acme" "asco direct from chicago 2025" VNone 2) Demo.asco
           eq_refl eq_refl eq_refl).
Defined.

Lemma match_events_clean_is_matched_witness :
  let row' := Demo.row_of "Acme" "ASCO Direct from Chicago 2025" VNone 2 in
  row' ∈ match_events Demo.matcher [Demo.unknown_event_row; row'] ∧
  has_errors row' = false ∧
  is_Some (matched_event row').
Proof.
  cbv zeta.
  assert (Demo.row_of "Acme" "ASCO Direct from Chicago 2025" VNone 2
          ∈ match_events Demo.matcher
              [Demo.unknown_event_row;
               Demo.row_of "Acme" "ASCO Direct from Chicago 2025" VNone 2]) as Hin.
  { apply (list_elem_of_lookup_2 _ 1). vm_compute. reflexivity. }
  split; [exact Hin|]. split; [reflexivity|].
  exact (match_events_clean_is_matched Demo.matcher _ _ Hin eq_refl).
Defined.

Lemma blank_event_reported_twice_witness :
  NoDup Demo.blank_record.*1 ∧
  blank (cell_at Demo.blank_record Demo.blank_map "event_name") = true ∧
  ∃ excel_row row',
    _parse_row Demo.blank_record Demo.blank_map 2 = Ok excel_row ∧
    match_events Demo.matcher [excel_row] = [row'] ∧
    "Missing event name" ∈ errors excel_row ∧
    errors row' = errors excel_row ++ ["No event name provided"] ∧
    matched_event row' = None.
Proof.
  assert (NoDup Demo.blank_record.*1) as Hrecord.
  { apply (bool_decide_unpack _). vm_compute. exact I. }
  assert (blank (cell_at Demo.blank_record Demo.blank_map "event_name") = true)
    as Hblank by (vm_compute; reflexivity).
  split; [exact Hrecord|]. split; [exact Hblank|].
  exact (blank_event_reported_twice Demo.matcher Demo.blank_record Demo.blank_map 2
           Hrecord Hblank).
Defined.

(** ** Batch assembler *)

Section BatchComposition.

Context (G : Generators) (document_type signatory_key : string).

Implicit Types (rows : list ExcelRow) (row : ExcelRow) (b : Batch).

#[local] Abbreviation batch_of rows :=
  (generate_batch_documents G rows document_type signatory_key).

(** Rows are processed one after the other and independently: the batch
    over [rows1 ++ rows2] has the archive entries, the renderer calls
    and the rows of the batch over [rows1] followed by those of the
    batch over [rows2], and the sums of their counters. *)
Theorem batch_app rows1 rows2 :
  let b := generate_batch_documents G (rows1 ++ rows2) document_type signatory_key in
  let b1 := generate_batch_documents G rows1 document_type signatory_key in
  let b2 := generate_batch_documents G rows2 document_type signatory_key in
  zipf b = zipf b1 ++ zipf b2 ∧
  success_count b = (success_count b1 + success_count b2)%nat ∧
  error_count b = (error_count b1 + error_count b2)%nat ∧
  rendered b = rendered b1 ++ rendered b2 ∧
  rows_after b = rows_after b1 ++ rows_after b2.
Proof.
  cbv zeta. rewrite !batch_parts.
  cbn [zipf rendered success_count error_count rows_after].
  by rewrite !bind_app, !filter_app, !length_app, fmap_app.
Qed.

(** What a row adds when the renderer raises on its payload. *)
Lemma render_failure_parts row ev payload msg :
  has_errors row = false →
  matched_event row = Some ev →
  build_payload G document_type signatory_key row ev = Ok payload →
  render G (render_call document_type signatory_key payload) = Raise msg →
  entries_of G document_type signatory_key row = [] ∧
  succeeds G document_type signatory_key row = false ∧
  calls_of G document_type signatory_key row
  = [render_call document_type signatory_key payload] ∧
  row_after G document_type signatory_key row
  = add_error row ("Generation failed: " +:+ msg).
Proof.
  intros Hclean Hev Hpayload Hrender.
  unfold entries_of, succeeds, calls_of, row_after, try_generate.
  by rewrite Hclean, Hev, Hpayload, Hrender.
Qed.

(** A renderer failure is local to its row: the row gets the error
    "Generation failed: " followed by the renderer's message and counts
    as one failure, nothing is archived for it, and the rows before and
    after it are processed as if it were not there. *)
Theorem batch_render_failure rows1 rows2 row ev payload msg :
  has_errors row = false →
  matched_event row = Some ev →
  build_payload G document_type signatory_key row ev = Ok payload →
  render G (render_call document_type signatory_key payload) = Raise msg →
  let b := batch_of (rows1 ++ row :: rows2) in
  zipf b = zipf (batch_of rows1) ++ zipf (batch_of rows2) ∧
  success_count b
  = (success_count (batch_of rows1) + success_count (batch_of rows2))%nat ∧
  error_count b
  = (error_count (batch_of rows1) + 1 + error_count (batch_of rows2))%nat ∧
  rows_after b
  = rows_after (batch_of rows1)
    ++ add_error row ("Generation failed: " +:+ msg) :: rows_after (batch_of rows2).
Proof.
  intros Hclean Hev Hpayload Hrender.
  destruct (render_failure_parts row ev payload msg Hclean Hev Hpayload Hrender)
    as (Hentries & Hok & _ & Hafter).
  cbv zeta. rewrite !batch_parts.
  cbn [zipf rendered success_count error_count rows_after].
  rewrite !bind_app, !bind_cons, !filter_app, !filter_cons, !length_app, fmap_app,
    fmap_cons, Hentries, Hok, Hafter.
  repeat case_decide; try done. simpl. split_and!; try done; lia.
Qed.

Lemma bind_all_nil {A B : Type} (f : A → list B) (l : list A) :
  (∀ x, x ∈ l → f x = []) → l ≫= f = [].
Proof.
  induction l as [|x l IH]; intros Hall; [done|].
  rewrite bind_cons, (Hall x), IH; [done| |left].
  intros x' Hx'. apply Hall. by right.
Qed.

Lemma filter_all_false (P : ExcelRow → Prop) `{!∀ x, Decision (P x)} rows :
  (∀ row, row ∈ rows → ¬ P row) → filter P rows = [].
Proof.
  induction rows as [|row rows IH]; intros Hall; [done|].
  rewrite filter_cons_False; [|apply Hall; left].
  apply IH. intros row' Hrow'. apply Hall. by right.
Qed.

(** The default signatory is looked up before the requested one: when
    the roster has no entry "sarah", no payload is built, whatever the
    signatory key and the document type. No row generates, the renderer
    is never called, and every error-free matched row ends with the
    error "Generation failed: 'sarah'". *)
Theorem batch_without_default_signatory rows :
  AUTHORIZED_SIGNATORIES G !! "sarah" = None →
  let b := batch_of rows in
  zipf b = [] ∧ success_count b = 0%nat ∧ error_count b = length rows ∧
  rendered b = [] ∧
  ∀ (i : nat) row,
    rows !! i = Some row → has_errors row = false → is_Some (matched_event row) →
    rows_after b !! i = Some (add_error row "Generation failed: 'sarah'").
Proof.
  intros Hsarah.
  assert (∀ row ev, try_generate G document_type signatory_key row ev
                    = ([], Raise "'sarah'")) as Htry.
  { intros row ev. unfold try_generate, build_payload, signatory_info.
    by rewrite Hsarah. }
  assert (∀ row, succeeds G document_type signatory_key row = false) as Hok.
  { intros row. unfold succeeds. destruct (has_errors row); [done|].
    destruct (matched_event row); [|done]. by rewrite Htry. }
  cbv zeta. rewrite batch_parts.
  cbn [zipf rendered success_count error_count rows_after].
  assert (filter (λ row, succeeds G document_type signatory_key row = true) rows = [])
    as Hnone.
  { apply filter_all_false. intros row _. by rewrite Hok. }
  split_and!.
  - apply bind_all_nil. intros row _. unfold entries_of.
    destruct (has_errors row); [done|]. destruct (matched_event row); [|done].
    by rewrite Htry.
  - by rewrite Hnone.
  - pose proof (filter_succeeds_length G document_type signatory_key rows) as Hlen.
    rewrite Hnone in Hlen. simpl in Hlen. done.
  - apply bind_all_nil. intros row _. unfold calls_of.
    destruct (has_errors row); [done|]. destruct (matched_event row); [|done].
    by rewrite Htry.
  - intros i row Hi Hclean [ev Hev]. rewrite list_lookup_fmap, Hi. simpl.
    unfold row_after. by rewrite Hclean, Hev, Htry.
Qed.

End BatchComposition.

Lemma batch_render_failure_witness :
  let row := Demo.row_of "Beta LLC" "ASCO Direct from Chicago 2025" VNone 3 in
  let before := [Demo.row_of "Acme Corp" "ASCO Direct from Chicago 2025" VNone 2] in
  let later := [Demo.row_of "Gamma Inc" "ASCO Direct from Chicago 2025" VNone 4] in
  let ev := mkMatchedEvent "ASCO Direct from Chicago 2025" "June 7, 2025" "Marriott"
              "Chicago, IL" 2025 in
  let payload :=
    mkDocumentPayload (VStr "Beta LLC") (VStr "") "ASCO Direct from Chicago 2025"
      "June 7, 2025" "Marriott" "Chicago, IL" (PyFloat false "5000.00") "$5,000.00"
      "LOR" None VNone ["Oncologists"] 2025 in
  has_errors row = false ∧
  matched_event row = Some ev ∧
  build_payload Demo.picky_generators "LOR" "sarah" row ev = Ok payload ∧
  render Demo.picky_generators (render_call "LOR" "sarah" payload)
  = Raise "template error" ∧
  let b := generate_batch_documents Demo.picky_generators (before ++ row :: later)
             "LOR" "sarah" in
  success_count b = 2%nat ∧ error_count b = 1%nat ∧ length (zipf b) = 4%nat ∧
  errors <$> rows_after b = [[]; ["Generation failed: template error"]; []].
Proof.
  intros row before later ev payload.
  assert (has_errors row = false) as Hclean by reflexivity.
  assert (matched_event row = Some ev) as Hev by reflexivity.
  assert (build_payload Demo.picky_generators "LOR" "sarah" row ev = Ok payload)
    as Hpayload by (vm_compute; reflexivity).
  assert (render Demo.picky_generators (render_call "LOR" "sarah" payload)
          = Raise "template error") as Hrender by (vm_compute; reflexivity).
  split; [exact Hclean|]. split; [exact Hev|]. split; [exact Hpayload|].
  split; [exact Hrender|].
  destruct (batch_render_failure Demo.picky_generators "LOR" "sarah" before later
              row ev payload "template error" Hclean Hev Hpayload Hrender)
    as (Hzip & Hsuccess & Herror & Hrows).
  cbv zeta. rewrite Hzip, Hsuccess, Herror, Hrows. vm_compute. repeat split.
Defined.

Lemma batch_without_default_signatory_witness :
  AUTHORIZED_SIGNATORIES Demo.no_default_generators !! "sarah" = None ∧
  let b := generate_batch_documents Demo.no_default_generators Demo.eleven_rows
             "LOR" "michael" in
  zipf b = [] ∧ success_count b = 0%nat ∧ error_count b = 11%nat ∧ rendered b = [].
Proof.
  assert (AUTHORIZED_SIGNATORIES Demo.no_default_generators !! "sarah" = None)
    as Hsarah by (vm_compute; reflexivity).
  split; [exact Hsarah|].
  destruct (batch_without_default_signatory Demo.no_default_generators "LOR" "michael"
              Demo.eleven_rows Hsarah) as (Hzip & Hsuccess & Herror & Hrendered & _).
  cbv zeta. rewrite Hzip, Hsuccess, Herror, Hrendered. repeat split.
Defined.

Section BatchDetails.

Context (G : Generators) (document_type signatory_key : string).

Implicit Types (rows : list ExcelRow) (row : ExcelRow) (b : Batch).

Lemma build_payload_type_and_signature row ev payload :
  build_payload G document_type signatory_key row ev = Ok payload →
  p_document_type payload = document_type ∧
  (document_type = "LOA" → is_Some (p_signature_person payload)) ∧
  (document_type ≠ "LOA" → p_signature_person payload = None).
Proof.
  unfold build_payload.
  destruct (signatory_info G signatory_key) as [info|e]; simpl; [|done].
  destruct (get_total_amount G row) as [amount|e]; simpl; [|done].
  intros [= <-]. simpl. split; [done|].
  destruct (String.eqb_spec document_type "LOA") as [->|Hne]; split; try done;
    by eexists.
Qed.

(** Only the document type "LOA" goes to the LOA renderer, with the
    signatory key and a signature line in the payload; any other
    document type goes to the LOR renderer, with no signature. *)
Theorem batch_renderer_dispatch rows call :
  call ∈ rendered (generate_batch_documents G rows document_type signatory_key) →
  ∃ payload,
    p_document_type payload = document_type ∧
    ((document_type = "LOA" ∧ call = CallLOA payload signatory_key ∧
      is_Some (p_signature_person payload)) ∨
     (document_type ≠ "LOA" ∧ call = CallLOR payload ∧
      p_signature_person payload = None)).
Proof.
  rewrite batch_parts. cbn [rendered].
  intros (row & Hcall & _)%list_elem_of_bind.
  destruct (calls_provenance G document_type signatory_key row call Hcall)
    as (ev & payload & _ & _ & Hpayload & ->).
  destruct (build_payload_type_and_signature row ev payload Hpayload)
    as (Htype & Hloa & Hlor).
  exists payload. split; [done|]. unfold render_call.
  destruct (String.eqb_spec document_type "LOA") as [Heq|Hne]; [left|right]; auto.
Qed.

Lemma failure_reason row :
  let row' := row_after G document_type signatory_key row in
  (succeeds G document_type signatory_key row = false ↔
   has_errors row' = true ∨ (has_errors row = false ∧ matched_event row = None)) ∧
  ¬ (has_errors row' = true ∧ has_errors row = false ∧ matched_event row = None).
Proof.
  unfold succeeds, row_after.
  destruct (has_errors row) eqn:Hrow; simpl; [rewrite Hrow; intuition congruence|].
  destruct (matched_event row) as [ev|] eqn:Hev; simpl;
    [|rewrite Hrow; intuition congruence].
  destruct (try_generate G document_type signatory_key row ev).2 as [written|e]; simpl.
  - rewrite Hrow. intuition congruence.
  - assert (has_errors (add_error row ("Generation failed: " +:+ e)) = true) as ->.
    { unfold has_errors. simpl. by destruct (errors row). }
    intuition congruence.
Qed.

(** A row counts as a failure for one of two reasons: it carries an
    error when the batch ends, or it has neither an error nor a matched
    event. The rows of the second kind are counted in [error_count]
    although no error is recorded on them. *)
Theorem batch_error_accounting rows :
  let b := generate_batch_documents G rows document_type signatory_key in
  error_count b
  = (length (filter (λ row, has_errors row = true) (rows_after b))
     + length (filter (λ row, has_errors row = false ∧ matched_event row = None) rows))%nat.
Proof.
  cbv zeta. rewrite batch_parts. cbn [error_count rows_after].
  induction rows as [|row rows IH]; [done|].
  destruct (failure_reason row) as [Hiff Hexcl].
  rewrite fmap_cons, !filter_cons.
  destruct (decide (succeeds G document_type signatory_key row = false)) as [Hok|Hok];
    destruct (decide (has_errors (row_after G document_type signatory_key row) = true))
      as [Hafter|Hafter];
    destruct (decide (has_errors row = false ∧ matched_event row = None)) as [Hun|Hun];
    cbn [length]; rewrite IH; try lia; exfalso; tauto.
Qed.

Lemma prefix_length (n : nat) (t : string) : (String.length (prefix n t) ≤ n)%nat.
Proof.
  revert t. induction n as [|n IH]; intros [|c t]; simpl; try lia.
  specialize (IH t). lia.
Qed.

Lemma prefix_chars (n : nat) (t : string) c :
  c ∈ list_ascii_of_string (prefix n t) → c ∈ list_ascii_of_string t.
Proof.
  revert t. induction n as [|n IH]; intros [|c' t]; simpl;
    try (by intros ?%elem_of_nil).
  intros [->|Hc]%elem_of_cons; [left|right; by apply IH].
Qed.

Lemma replace_length (a b : ascii) (t : string) :
  String.length (replace a b t) = String.length t.
Proof. induction t as [|c t IH]; simpl; [done|by rewrite IH]. Qed.

(** Space and slash are both gone after the two replacements. *)
Lemma replace_chars (t : string) c :
  c ∈ list_ascii_of_string (replace "/" "_" (replace " " "_" t)) →
  c ≠ " "%char ∧ c ≠ "/"%char.
Proof.
  induction t as [|c' t IH]; simpl; [by intros ?%elem_of_nil|].
  intros [->|Hc]%elem_of_cons; [|by apply IH].
  destruct (Ascii.eqb_spec c' " ") as [->|Hspace]; simpl; [done|].
  destruct (Ascii.eqb_spec c' "/") as [->|Hslash]; [done|done].
Qed.

Lemma company_slug_Ok row slug :
  company_slug row = Ok slug →
  ∃ s, company_name row = VStr s ∧
       slug = prefix 50 (replace "/" "_" (replace " " "_" s)).
Proof.
  unfold company_slug. destruct (company_name row) as [|s|n|b|x]; try done.
  intros [= <-]. by exists s.
Qed.

(** The slug of a company name is at most 50 characters long and holds
    neither a space nor a slash; it exists only for a company name that
    is a string. *)
Theorem company_slug_sanitized row slug :
  company_slug row = Ok slug →
  (∃ s, company_name row = VStr s) ∧
  (String.length slug ≤ 50)%nat ∧
  ∀ c, c ∈ list_ascii_of_string slug → c ≠ " "%char ∧ c ≠ "/"%char.
Proof.
  intros (s & Hname & ->)%company_slug_Ok. split; [by exists s|]. split.
  - apply prefix_length.
  - intros c Hc%prefix_chars. by apply replace_chars in Hc.
Qed.

(** The same for the slug of the event name, cut to 30 characters. *)
Theorem event_slug_sanitized (ev : MatchedEvent) :
  (String.length (event_slug ev) ≤ 30)%nat ∧
  ∀ c, c ∈ list_ascii_of_string (event_slug ev) → c ≠ " "%char ∧ c ≠ "/"%char.
Proof.
  unfold event_slug. split.
  - rewrite !replace_length. apply prefix_length.
  - intros c. apply replace_chars.
Qed.

(** A company name that is not a string (a company cell holding a
    number) passes every check and reaches the renderer, but the row
    then fails on [replace] when the file names are built: the renderer
    has been called, nothing is archived, and the row is counted as a
    failure with the message of the AttributeError. *)
Theorem batch_step_company_not_a_string b row ev payload docx_buffer pdf_buffer :
  has_errors row = false →
  matched_event row = Some ev →
  build_payload G document_type signatory_key row ev = Ok payload →
  render G (render_call document_type signatory_key payload)
  = Ok (docx_buffer, pdf_buffer) →
  (∀ s, company_name row ≠ VStr s) →
  batch_step G document_type signatory_key b row
  = mkBatch (zipf b) (success_count b) (S (error_count b))
      (rendered b ++ [render_call document_type signatory_key payload])
      (rows_after b
       ++ [add_error row
             ("Generation failed: '" +:+ type_name (company_name row)
                +:+ "' object has no attribute 'replace'")]).
Proof.
  intros Hclean Hev Hpayload Hrender Hname.
  unfold batch_step, try_generate, company_slug.
  rewrite Hclean, Hev, Hpayload, Hrender.
  destruct (company_name row) as [|s|n|flag|x]; try done.
  by destruct (Hname s).
Qed.

(** Running the batch again on the rows it leaves changes nothing: the
    rows that failed carry their error and are skipped without a call to
    the renderer, the others give what they gave, and no further error
    is recorded. *)
Theorem batch_rerun rows :
  let b := generate_batch_documents G rows document_type signatory_key in
  let b' := generate_batch_documents G (rows_after b) document_type signatory_key in
  zipf b' = zipf b ∧ success_count b' = success_count b ∧
  error_count b' = error_count b ∧ rows_after b' = rows_after b ∧
  rendered b' `sublist_of` rendered b.
Proof.
  cbv zeta. rewrite !batch_parts.
  cbn [zipf rendered success_count error_count rows_after].
  assert (∀ row,
            let row' := row_after G document_type signatory_key row in
            entries_of G document_type signatory_key row'
            = entries_of G document_type signatory_key row ∧
            succeeds G document_type signatory_key row'
            = succeeds G document_type signatory_key row ∧
            row_after G document_type signatory_key row' = row' ∧
            calls_of G document_type signatory_key row'
              `sublist_of` calls_of G document_type signatory_key row) as Hrow.
  { intros row. unfold row_after, entries_of, succeeds, calls_of.
    destruct (has_errors row) eqn:Herr; simpl; [by rewrite Herr|].
    destruct (matched_event row) as [ev|] eqn:Hev; [|by rewrite Herr, Hev].
    destruct (try_generate G document_type signatory_key row ev) as [cs [written|e]]
      eqn:Htry; simpl.
    - by rewrite Herr, Hev, Htry.
    - assert (has_errors (add_error row ("Generation failed: " +:+ e)) = true) as ->.
      { unfold has_errors. simpl. by destruct (errors row). }
      split_and!; try done. apply sublist_nil_l. }
  induction rows as [|row rows (IHz & IHs & IHe & IHr & IHc)]; [done|].
  destruct (Hrow row) as (Hentries & Hok & Hafter & Hcalls).
  rewrite !fmap_cons, !bind_cons, !filter_cons, Hentries, Hok, Hafter, IHz, IHr.
  split_and!; try done.
  - repeat case_decide; try done; simpl; lia.
  - repeat case_decide; try done; simpl; lia.
  - by apply sublist_app.
Qed.

End BatchDetails.

Lemma batch_renderer_dispatch_witness :
  let rows := [Demo.row_of "Acme Corp" "ASCO Direct from Chicago 2025" VNone 2] in
  let payload :=
    mkDocumentPayload (VStr "Acme Corp") (VStr "") "ASCO Direct from Chicago 2025"
      "June 7, 2025" "Marriott" "Chicago, IL" (PyFloat false "5000.00") "$5,000.00"
      "Invoice" None VNone ["Oncologists"] 2025 in
  CallLOR payload
    ∈ rendered (generate_batch_documents Demo.generators rows "Invoice" "michael") ∧
  ∃ payload',
    p_document_type payload' = "Invoice" ∧
    (("Invoice" = "LOA" ∧ CallLOR payload = CallLOA payload' "michael" ∧
      is_Some (p_signature_person payload')) ∨
     ("Invoice" ≠ "LOA" ∧ CallLOR payload = CallLOR payload' ∧
      p_signature_person payload' = None)).
Proof.
  intros rows payload.
  assert (CallLOR payload
            ∈ rendered (generate_batch_documents Demo.generators rows "Invoice" "michael"))
    as Hcall.
  { apply (list_elem_of_lookup_2 _ 0). vm_compute. reflexivity. }
  split; [exact Hcall|].
  exact (batch_renderer_dispatch Demo.generators "Invoice" "michael" rows _ Hcall).
Defined.

Lemma company_slug_sanitized_witness :
  let row := Demo.row_of "Acme / Beta Holdings" "ASCO Direct from Chicago 2025" VNone 2 in
  company_slug row = Ok "Acme___Beta_Holdings" ∧
  (String.length "Acme___Beta_Holdings" ≤ 50)%nat ∧
  ∀ c, c ∈ list_ascii_of_string "Acme___Beta_Holdings" → c ≠ " "%char ∧ c ≠ "/"%char.
Proof.
  intros row.
  assert (company_slug row = Ok "Acme___Beta_Holdings") as Hslug
    by (vm_compute; reflexivity).
  split; [exact Hslug|].
  exact (proj2 (company_slug_sanitized row _ Hslug)).
Defined.

Lemma batch_step_company_not_a_string_witness :
  let row := Demo.numeric_company_row in
  let ev := mkMatchedEvent "ASCO Direct from Chicago 2025" "June 7, 2025" "Marriott"
              "Chicago, IL" 2025 in
  let payload :=
    mkDocumentPayload (VInt 12345) (VStr "") "ASCO Direct from Chicago 2025"
      "June 7, 2025" "Marriott" "Chicago, IL" (PyFloat false "5000.00") "$5,000.00"
      "LOR" None VNone ["Oncologists"] 2025 in
  has_errors row = false ∧
  matched_event row = Some ev ∧
  build_payload Demo.generators "LOR" "sarah" row ev = Ok payload ∧
  render Demo.generators (render_call "LOR" "sarah" payload)
  = Ok ("docx 12345", "pdf 12345") ∧
  (∀ s, company_name row ≠ VStr s) ∧
  let b := generate_batch_documents Demo.generators [row] "LOR" "sarah" in
  zipf b = [] ∧ success_count b = 0%nat ∧ error_count b = 1%nat ∧
  rendered b = [CallLOR payload] ∧
  errors <$> rows_after b
  = [["Generation failed: 'int' object has no attribute 'replace'"]].
Proof.
  intros row ev payload.
  assert (has_errors row = false) as Hclean by reflexivity.
  assert (matched_event row = Some ev) as Hev by reflexivity.
  assert (build_payload Demo.generators "LOR" "sarah" row ev = Ok payload)
    as Hpayload by (vm_compute; reflexivity).
  assert (render Demo.generators (render_call "LOR" "sarah" payload)
          = Ok ("docx 12345", "pdf 12345")) as Hrender by (vm_compute; reflexivity).
  assert (∀ s, company_name row ≠ VStr s) as Hname by (intros s; discriminate).
  split; [exact Hclean|]. split; [exact Hev|]. split; [exact Hpayload|].
  split; [exact Hrender|]. split; [exact Hname|].
  cbv zeta. unfold generate_batch_documents. cbn [foldl].
  rewrite (batch_step_company_not_a_string Demo.generators "LOR" "sarah"
             (mkBatch [] 0 0 [] []) row ev payload _ _ Hclean Hev Hpayload Hrender Hname).
  repeat split.
Defined.

(** ** Validation report *)

(** The three counters of the report add up: every row is either a
    valid row or a row with errors, and the report opens with the title
    and the three counts. *)
Theorem report_counts (rows : list ExcelRow) :
  let valid := length (filter (λ r, has_errors r = false) rows) in
  let failed := length (filter (λ r, has_errors r = true) rows) in
  (valid + failed = length rows)%nat ∧
  take 4 (report_lines rows)
  = ["# Validation Report" +:+ nl;
     "**Total Rows**: " +:+ str_of_nat (valid + failed);
     "**Valid Rows**: " +:+ str_of_nat valid;
     "**Rows with Errors**: " +:+ str_of_nat failed +:+ nl].
Proof.
  cbv zeta.
  assert (length (filter (λ r, has_errors r = false) rows)
          + length (filter (λ r, has_errors r = true) rows) = length rows)%nat as Hsum.
  { induction rows as [|row rows IH]; [done|].
    rewrite !filter_cons. destruct (has_errors row);
      repeat case_decide; try done; simpl; lia. }
  split; [done|]. rewrite Hsum. done.
Qed.

(** ** Signatory *)

(** A signatory key missing from the roster falls back to the entry
    "sarah": the signature line of an LOA payload is then her name and
    title; a key of the roster gives the name and title of its entry. *)
Theorem build_payload_signatory (G : Generators) (signatory_key : string)
    (row : ExcelRow) (ev : MatchedEvent) (payload : DocumentPayload) (sarah : Signatory) :
  AUTHORIZED_SIGNATORIES G !! "sarah" = Some sarah →
  build_payload G "LOA" signatory_key row ev = Ok payload →
  p_signature_person payload
  = Some match AUTHORIZED_SIGNATORIES G !! signatory_key with
         | Some info => sig_name info +:+ " - " +:+ sig_title info
         | None => sig_name sarah +:+ " - " +:+ sig_title sarah
         end.
Proof.
  intros Hsarah. unfold build_payload, signatory_info. rewrite Hsarah. simpl.
  destruct (get_total_amount G row) as [amount|e]; simpl; [|done].
  intros [= <-]. simpl. by destruct (AUTHORIZED_SIGNATORIES G !! signatory_key).
Qed.

Lemma build_payload_signatory_witness :
  let row := Demo.row_of "Acme Corp" "ASCO Direct from Chicago 2025" (VStr "1 Main St") 2 in
  let ev := mkMatchedEvent "ASCO Direct from Chicago 2025" "June 7, 2025" "Marriott"
              "Chicago, IL" 2025 in
  let payload :=
    mkDocumentPayload (VStr "Acme Corp") (VStr "1 Main St") "ASCO Direct from Chicago 2025"
      "June 7, 2025" "Marriott" "Chicago, IL" (PyFloat false "5000.00") "$5,000.00"
      "LOA" (Some "Sarah - Director") VNone ["Oncologists"] 2025 in
  AUTHORIZED_SIGNATORIES Demo.generators !! "sarah" = Some (mkSignatory "Sarah" "Director") ∧
  build_payload Demo.generators "LOA" "maureen" row ev = Ok payload ∧
  p_signature_person payload = Some "Sarah - Director".
Proof.
  intros row ev payload.
  assert (AUTHORIZED_SIGNATORIES Demo.generators !! "sarah"
          = Some (mkSignatory "Sarah" "Director")) as Hsarah by (vm_compute; reflexivity).
  assert (build_payload Demo.generators "LOA" "maureen" row ev = Ok payload)
    as Hpayload by (vm_compute; reflexivity).
  split; [exact Hsarah|]. split; [exact Hpayload|].
  exact (eq_trans
           (build_payload_signatory Demo.generators "maureen" row ev payload _
              Hsarah Hpayload) eq_refl).
Defined.
